(** * cardboard: chat-room synchronisation with the Discord gateway

    A shallow embedding of [chat/models.py] (the [ChatRoom] aggregate and the
    [ChatRole] table) and of [discord_lib/discord_chat_service.py] (the REST
    client), with the properties the specification states about them.

    Python code that raises, catches and mutates is written in a state and
    exception monad; the remote service is a store of JSON objects reached
    through [requests], with a script of transport faults. *)

From Stdlib Require Import ZArith String Ascii List Bool Lia DecimalString Sorted.
From Stdlib Require Import DecimalPos DecimalN.
From stdpp Require Import base option list gmap strings.

Local Open Scope Z_scope.
Local Open Scope string_scope.
Local Open Scope list_scope.

Set Warnings "-register-all".

(** ** Python values *)

(** The values that travel through the code: column values, identifiers and
    decoded JSON. A [dict] with string keys is kept as an association list in
    insertion order. *)
Inductive pyval : Type :=
| PNone
| PBool (b : bool)
| PInt (n : Z)
| PStr (s : string)
| PList (l : list pyval)
| PDict (d : list (string * pyval)).

(** Truth value of an object, as [if x:] and [not x] take it. *)
Definition truthy (v : pyval) : bool :=
  match v with
  | PNone => false
  | PBool b => b
  | PInt n => negb (n =? 0)%Z
  | PStr s => negb (String.eqb s "")
  | PList l => negb (Nat.eqb (length l) 0)
  | PDict d => negb (Nat.eqb (length d) 0)
  end.

(** [x is None] *)
Definition is_none (v : pyval) : bool :=
  match v with PNone => true | _ => false end.

(** [str(n)] for an [int]. *)
Definition py_str_int (n : Z) : string := NilZero.string_of_int (Z.to_int n).

(** A [dict] from display text to URL, e.g. [embedded_urls]. *)
Definition urlmap : Type := list (string * string).

(** The exceptions the code can meet; every one is an [Exception]. *)
Inductive exn : Type :=
| ConnectionError
| JSONDecodeError
| TypeError
| KeyError
| IndexError
| AttributeError
| ValueError
| PyException (msg : string).

Inductive result (A : Type) : Type :=
| Ok (a : A)
| Raise (e : exn).
Arguments Ok {A} a.
Arguments Raise {A} e.

Definition raised {A} (r : result A) : bool :=
  match r with Ok _ => false | Raise _ => true end.

(** *** dict and list primitives *)

Fixpoint dict_get (k : string) (d : list (string * pyval)) : option pyval :=
  match d with
  | [] => None
  | (k', v) :: d' => if String.eqb k k' then Some v else dict_get k d'
  end.

(** [d[k] = v] *)
Fixpoint dict_set (k : string) (v : pyval) (d : list (string * pyval))
  : list (string * pyval) :=
  match d with
  | [] => [(k, v)]
  | (k', v') :: d' =>
      if String.eqb k k' then (k, v) :: d' else (k', v') :: dict_set k v d'
  end.

(** [d.update(u)] *)
Definition dict_update (d u : list (string * pyval)) : list (string * pyval) :=
  fold_left (fun acc kv => dict_set (fst kv) (snd kv) acc) u d.

(** [k in d] *)
Definition dict_has (k : string) (d : list (string * pyval)) : bool :=
  match dict_get k d with Some _ => true | None => false end.

(** [v == s] for a [str] s. *)
Definition is_str (s : string) (v : pyval) : bool :=
  match v with PStr s' => String.eqb s s' | _ => false end.

Fixpoint is_substring (needle hay : string) : bool :=
  String.prefix needle hay ||
  match hay with
  | EmptyString => false
  | String _ rest => is_substring needle rest
  end.

(** [s in container] for a [str] s. *)
Definition py_in (s : string) (container : pyval) : result bool :=
  match container with
  | PList l => Ok (existsb (is_str s) l)
  | PDict d => Ok (dict_has s d)
  | PStr h => Ok (is_substring s h)
  | PNone | PBool _ | PInt _ => Raise TypeError
  end.

(** [container[s]] for a [str] s. *)
Definition py_getitem (container : pyval) (s : string) : result pyval :=
  match container with
  | PDict d =>
      match dict_get s d with Some v => Ok v | None => Raise KeyError end
  | _ => Raise TypeError
  end.

(** [xs.append(x)], giving the list after the call. *)
Definition py_append (xs x : pyval) : result pyval :=
  match xs with
  | PList l => Ok (PList (l ++ [x]))
  | _ => Raise AttributeError
  end.

Fixpoint remove_first (s : string) (l : list pyval) : option (list pyval) :=
  match l with
  | [] => None
  | v :: l' =>
      if is_str s v then Some l'
      else match remove_first s l' with
           | Some r => Some (v :: r)
           | None => None
           end
  end.

(** [xs.remove(s)], giving the list after the call. *)
Definition py_remove (xs : pyval) (s : string) : result pyval :=
  match xs with
  | PList l =>
      match remove_first s l with
      | Some r => Ok (PList r)
      | None => Raise ValueError
      end
  | _ => Raise AttributeError
  end.

(** [v == n] for an [int] n. *)
Definition is_int (n : Z) (v : pyval) : bool :=
  match v with PInt n' => Z.eqb n n' | _ => false end.

Fixpoint characters (s : string) : list pyval :=
  match s with
  | EmptyString => []
  | String c rest => PStr (String c EmptyString) :: characters rest
  end.

(** The items [for c in container] goes through. *)
Definition py_iter (container : pyval) : result (list pyval) :=
  match container with
  | PList l => Ok l
  | PDict d => Ok (map (fun kv => PStr (fst kv)) d)
  | PStr s => Ok (characters s)
  | PNone | PBool _ | PInt _ => Raise TypeError
  end.

(** ** State and exceptions *)

Module SE.
(** A computation over a state [S] that returns or raises. Whatever it did
    to the state before raising stays done. *)
Definition t (S A : Type) : Type := S -> result A * S.

Definition ret {S A} (a : A) : t S A := fun s => (Ok a, s).

Definition bind {S A B} (m : t S A) (k : A -> t S B) : t S B :=
  fun s =>
    match m s with
    | (Ok a, s') => k a s'
    | (Raise e, s') => (Raise e, s')
    end.

Definition raise {S A} (e : exn) : t S A := fun s => (Raise e, s).

(** [try: m  except Exception as e: h e] *)
Definition try_except {S A} (m : t S A) (h : exn -> t S A) : t S A :=
  fun s =>
    match m s with
    | (Ok a, s') => (Ok a, s')
    | (Raise e, s') => h e s'
    end.

(** A pure step that may raise. *)
Definition lift {S A} (r : result A) : t S A := fun s => (r, s).

Definition gets {S A} (f : S -> A) : t S A := fun s => (Ok (f s), s).

Definition modify {S} (f : S -> S) : t S unit := fun s => (Ok tt, f s).
End SE.

Declare Scope se_scope.
Delimit Scope se_scope with se.
Notation "x <- m ;; k" := (SE.bind m (fun x => k))
  (at level 100, m at next level, right associativity) : se_scope.
Notation "m ;;; k" := (SE.bind m (fun _ => k))
  (at level 100, right associativity) : se_scope.
Local Open Scope se_scope.


(** ** The application's records *)

(** [hunt.settings], with the hunt's primary key. *)
Record Hunt : Type := {
  hunt_id : Z;
  discord_guild_id : pyval;
  discord_puzzle_announcements_channel_id : pyval;
}.

(** The result of [create_channel_url]: the text
    [https://discord.com/channels/{guild_id}/{channel_id}], kept as the two
    values the f-string formats. *)
Record url : Type := ChannelUrl { url_guild : pyval; url_channel : pyval }.

(** The columns of [ChatRoom]. *)
Record Columns : Type := {
  service : string;
  name : string;
  forum_channel_id : pyval;
  post_id : pyval;
  post_url : option url;
}.

(** A meta puzzle linked through [puzzle.metas], with what the chat code
    reads of it; [meta_chat_room] is [None] when the puzzle has no room. *)
Record Meta : Type := {
  meta_name : string;
  meta_created_on : Z;
  meta_chat_room : option Columns;
}.

(** The puzzle a room belongs to. [field_url_map] is what
    [puzzle.create_field_url_map()] returns. *)
Record Puzzle : Type := {
  puzzle_name : string;
  is_meta : bool;
  hunt : Hunt;
  field_url_map : urlmap;
  metas : list Meta;
}.

Record ChatRoom : Type := {
  columns :> Columns;
  puzzle : Puzzle;
}.

(** Represents group permissions on a chat platform (like a Discord role). *)
Record ChatRole : Type := {
  role_hunt : Z;
  role_service : string;
  role_name : string;
  role_id : string;
}.

(** Tag IDs *)
Definition NEW_TAG : Z := 1320198250489319434.
Definition WORKING_TAG : Z := 1320199606243561513.
Definition EXTRACTING_TAG : Z := 1320199821130203167.
Definition STUCK_TAG : Z := 1320199859961200710.
Definition SOLVED_TAG : Z := 1320199886192250990.
Definition ABANDONED_TAG : Z := 1320565939443470407.

Definition SERVICE_CHOICES : list string := ["DISCORD"].

(** The two tag names of [puzzles.puzzle_tag.PuzzleTag] that the chat code
    compares against; that module is not among the sources embedded here, so the names
    are parameters. *)
Class PuzzleTag : Type := {
  HIGH_PRIORITY : string;
  LOW_PRIORITY : string;
}.

(** ** The remote service *)

Inductive method : Type := GET | POST | PATCH.

(** The paths under [DISCORD_BASE_API_URL], each with the value its f-string
    formats. *)
Inductive endpoint : Type :=
| Channel (channel_id : pyval)          (* /channels/{id} *)
| ChannelThreads (channel_id : pyval)   (* /channels/{id}/threads *)
| GuildChannels (guild_id : pyval)      (* /guilds/{id}/channels *)
| GuildRoles (guild_id : pyval).        (* /guilds/{id}/roles *)

(** One call of [requests.get], [requests.post] or [requests.patch];
    [payload] is the [json=] argument, [PNone] without one. *)
Record request : Type := {
  verb : method;
  target : endpoint;
  payload : pyval;
}.

(** What the transport does to one request. *)
Inductive fault : Type :=
| Delivered                       (* served and answered *)
| Refused                         (* never reaches the service: requests raises *)
| Lost                            (* served, the answer is lost: requests raises *)
| Garbled (content : option pyval).
                                  (* not served; this content comes back,
                                     [None] when it is not JSON at all *)

(** Everything outside the process: the service's channel objects, its id
    counter, the faults to come (none left: every request is delivered), the
    requests sent so far, the lines printed, and the [ChatRole] table in
    primary-key order. *)
Record World : Type := {
  remote : gmap string (list (string * pyval));
  next_id : N;
  script : list fault;
  log : list request;
  stdout : list (string * option exn);
  chat_roles : list ChatRole;
}.

Definition with_remote (r : gmap string (list (string * pyval))) (w : World) : World :=
  {| remote := r; next_id := next_id w; script := script w; log := log w;
     stdout := stdout w; chat_roles := chat_roles w |}.

Definition with_next_id (n : N) (w : World) : World :=
  {| remote := remote w; next_id := n; script := script w; log := log w;
     stdout := stdout w; chat_roles := chat_roles w |}.

Definition with_script (f : list fault) (w : World) : World :=
  {| remote := remote w; next_id := next_id w; script := f; log := log w;
     stdout := stdout w; chat_roles := chat_roles w |}.

Definition with_log (l : list request) (w : World) : World :=
  {| remote := remote w; next_id := next_id w; script := script w; log := l;
     stdout := stdout w; chat_roles := chat_roles w |}.

Definition with_stdout (o : list (string * option exn)) (w : World) : World :=
  {| remote := remote w; next_id := next_id w; script := script w; log := log w;
     stdout := o; chat_roles := chat_roles w |}.

(** No fault is pending: the service answers every request. *)
Definition reliable (w : World) : Prop := script w = [].

Definition unknown_channel : pyval :=
  PDict [("message", PStr "Unknown Channel"); ("code", PInt 10003)].

(** The service stores a new object under a fresh id and answers with it. *)
Definition create_object (fields : list (string * pyval)) (w : World) : pyval * World :=
  let id := NilZero.string_of_uint (N.to_uint (next_id w)) in
  let obj := dict_set "id" (PStr id) fields in
  (PDict obj, with_next_id (N.succ (next_id w)) (with_remote (<[id := obj]> (remote w)) w)).

(** The channel objects of a guild. *)
Definition guild_channels (g : string) (r : gmap string (list (string * pyval)))
  : list pyval :=
  map (fun kv => PDict (snd kv))
    (List.filter
       (fun kv => match dict_get "guild_id" (snd kv) with
                  | Some v => is_str g v
                  | None => false
                  end)
       (map_to_list r)).

(** How the service answers a delivered request: a channel object is read
    with GET and its fields overwritten with PATCH; POST creates a channel in
    a guild or a thread in a known forum; GET on a guild lists its channels. *)
Definition serve (r : request) (w : World) : pyval * World :=
  match verb r, target r, payload r with
  | GET, GuildChannels (PStr g), _ => (PList (guild_channels g (remote w)), w)
  | GET, Channel (PStr c), _ =>
      match remote w !! c with
      | Some obj => (PDict obj, w)
      | None => (unknown_channel, w)
      end
  | PATCH, Channel (PStr c), PDict fields =>
      match remote w !! c with
      | Some obj =>
          let obj' := dict_update obj fields in
          (PDict obj', with_remote (<[c := obj']> (remote w)) w)
      | None => (unknown_channel, w)
      end
  | POST, ChannelThreads (PStr f), PDict fields =>
      match remote w !! f with
      | Some _ => create_object (dict_set "parent_id" (PStr f) fields) w
      | None => (unknown_channel, w)
      end
  | POST, GuildChannels (PStr g), PDict fields =>
      create_object (dict_set "guild_id" (PStr g) fields) w
  | _, _, _ => (unknown_channel, w)
  end.

(** Code that talks to the service runs over the world. *)
Definition G (A : Type) : Type := SE.t World A.

(** [requests.<verb>(url, headers=..., json=payload, timeout=5)]: the
    response content, or a raised transport error. *)
Definition requests (v : method) (e : endpoint) (body : pyval) : G (option pyval) :=
  fun w =>
    let r := {| verb := v; target := e; payload := body |} in
    let w1 := with_log (log w ++ [r]) w in
    match script w1 with
    | [] => let '(answer, w2) := serve r w1 in (Ok (Some answer), w2)
    | Delivered :: rest =>
        let '(answer, w2) := serve r (with_script rest w1) in (Ok (Some answer), w2)
    | Refused :: rest => (Raise ConnectionError, with_script rest w1)
    | Lost :: rest =>
        let '(_, w2) := serve r (with_script rest w1) in (Raise ConnectionError, w2)
    | Garbled content :: rest => (Ok content, with_script rest w1)
    end.

(** [json.loads(response.content.decode("utf-8"))] *)
Definition json_loads (content : option pyval) : G pyval :=
  match content with
  | Some v => SE.ret v
  | None => SE.raise JSONDecodeError
  end.

(** [print(f"text")] and [print(f"text: {e}")]; a line is kept as its text
    and the exception it formats. *)
Definition print (text : string) (e : option exn) : G unit :=
  SE.modify (fun w => with_stdout (stdout w ++ [(text, e)]) w).

(** ** discord_lib/discord_chat_service.py *)

Definition CHANNEL_CATEGORY_TYPE : Z := 4.
Definition CHANNEL_TEXT_TYPE : Z := 0.
Definition CHANNEL_VOICE_TYPE : Z := 2.
Definition CHANNEL_FORUM_TYPE : Z := 15.

(** [name__iexact]: equality up to the case of ASCII letters. *)
Definition lower (c : ascii) : ascii :=
  let n := nat_of_ascii c in
  if (Nat.leb 65 n && Nat.leb n 90)%bool then ascii_of_nat (n + 32) else c.

Fixpoint lowercase (s : string) : string :=
  match s with
  | EmptyString => EmptyString
  | String c rest => String (lower c) (lowercase rest)
  end.

Definition iexact (a b : string) : bool :=
  String.eqb (lowercase a) (lowercase b).

Module DiscordChatService.

Definition _make_link_embeds (embedded_urls : urlmap) : pyval :=
  match embedded_urls with
  | [] => PNone
  | _ =>
      let fields :=
        map (fun '(text, url) =>
               PDict [("name", PStr text);
                      ("value", PStr ("[link](" +:+ url +:+ ")"));
                      ("inline", PBool true)])
            embedded_urls in
      if Nat.eqb (length fields) 0 then PNone
      else
        (* 12852794 is Cardinal *)
        PList [PDict [("fields", PList fields); ("color", PInt 12852794);
                      ("type", PStr "rich")]]
  end.

(** Edits forum post identified by channel_id. *)
Definition send_message (channel_id : pyval) (msg : string)
    (embedded_urls : urlmap) : G unit :=
  SE.try_except
    (let embeds := _make_link_embeds embedded_urls in
     _ <- requests PATCH (Channel channel_id)
            (PDict [("content", PStr msg); ("embeds", embeds)]) ;;
     SE.ret tt)
    (fun e => print "Error sending message to discord forum post" (Some e)).

Definition announce (puzzle_announcements_id : pyval) (msg : string)
    (embedded_urls : urlmap) : G unit :=
  if truthy puzzle_announcements_id
  then send_message puzzle_announcements_id msg embedded_urls
  else SE.ret tt.

(** Returns channel id *)
Definition _create_channel_impl (guild_id : pyval) (name : string)
    (chan_type : Z) (parent_id : pyval) : G pyval :=
  SE.try_except
    (response <- requests POST (GuildChannels guild_id)
                   (PDict [("name", PStr name); ("type", PInt chan_type);
                           ("parent_id", parent_id)]) ;;
     json_dict <- json_loads response ;;
     has_id <- SE.lift (py_in "id" json_dict) ;;
     if has_id : bool then SE.lift (py_getitem json_dict "id")
     else (print "Unable to create channel" None ;;; SE.ret PNone))
    (fun e => print "Error creating channel" (Some e) ;;; SE.ret PNone).

(** Creates a new forum channel in the guild. *)
Definition create_forum_channel (guild_id : pyval) (forum_name : string) : G pyval :=
  if negb (truthy guild_id) then SE.raise (PyException "Missing guild_id")
  else _create_channel_impl guild_id forum_name CHANNEL_FORUM_TYPE PNone.

Definition _get_channels_for_guild (guild_id : pyval) : G pyval :=
  if negb (truthy guild_id) then SE.raise (PyException "Missing guild_id")
  else
    SE.try_except
      (response <- requests GET (GuildChannels guild_id) PNone ;;
       channels <- json_loads response ;;
       SE.ret channels)
      (fun e => print "Error getting channels from discord" (Some e) ;;; SE.ret PNone).

(** [[c for c in all_channels
      if c["name"] == forum_name and c["type"] == CHANNEL_FORUM_TYPE]] *)
Fixpoint forum_channels_named (forum_name : string) (all_channels : list pyval)
  : result (list pyval) :=
  match all_channels with
  | [] => Ok []
  | c :: rest =>
      match py_getitem c "name" with
      | Raise e => Raise e
      | Ok nm =>
          match (if is_str forum_name nm
                 then match py_getitem c "type" with
                      | Ok ty => Ok (is_int CHANNEL_FORUM_TYPE ty)
                      | Raise e => Raise e
                      end
                 else Ok false) with
          | Raise e => Raise e
          | Ok keep =>
              match forum_channels_named forum_name rest with
              | Raise e => Raise e
              | Ok found => Ok (if keep : bool then c :: found else found)
              end
          end
      end
  end.

(** Returns id for forum channel. If it doesn't exist, a new one is created. *)
Definition _get_or_create_forum_channel (guild_id : pyval) (forum_name : string)
  : G pyval :=
  all_channels <- _get_channels_for_guild guild_id ;;
  items <- SE.lift (py_iter all_channels) ;;
  forum_channels <- SE.lift (forum_channels_named forum_name items) ;;
  match forum_channels with
  | c :: _ => SE.lift (py_getitem c "id")
  | [] => create_forum_channel guild_id forum_name
  end.

Definition get_all_roles (guild_id : pyval) : G pyval :=
  SE.try_except
    (response <- requests GET (GuildRoles guild_id) PNone ;;
     json_loads response)
    (fun e => print "Error getting roles from Discord" (Some e) ;;; SE.ret PNone).

Definition create_role (guild_id : pyval) (role_name : string) (color : pyval)
  : G pyval :=
  SE.try_except
    (response <- requests POST (GuildRoles guild_id)
                   (PDict [("name", PStr role_name); ("color", color);
                           ("mentionable", PBool true)]) ;;
     json_loads response)
    (fun e => print "Error creating Discord role" (Some e) ;;; SE.ret PNone).

Definition create_channel_url (guild_id channel_id : pyval) : result url :=
  if (negb (truthy guild_id) || negb (truthy channel_id))%bool
  then Raise (PyException "Missing guild_id or channel_id")
  else Ok (ChannelUrl guild_id channel_id).

Definition get_guild_id (puzzle : Puzzle) : pyval :=
  discord_guild_id (hunt puzzle).

(** Creates a new post in the specified forum channel. The result is the
    pair [(thread_id, thread_url)], or [None]. *)
Definition create_forum_post (forum_channel_id : pyval)
    (puzzle_name content : string) (tag_ids : option (list Z))
    (puzzle : Puzzle) : G (option (pyval * url)) :=
  SE.try_except
    (let applied_tags :=
       match tag_ids with
       | Some ids => map (fun tag_id => PStr (py_str_int tag_id)) ids
       | None => []
       end in
     response <- requests POST (ChannelThreads forum_channel_id)
                   (PDict [("name", PStr puzzle_name);
                           ("message",
                            PDict [("content", PStr content);
                                   ("embeds",
                                    _make_link_embeds (field_url_map puzzle))]);
                           ("applied_tags", PList applied_tags)]) ;;
     json_dict <- json_loads response ;;
     has_id <- SE.lift (py_in "id" json_dict) ;;
     if has_id : bool then
       thread_id <- SE.lift (py_getitem json_dict "id") ;;
       thread_url <- SE.lift (create_channel_url (get_guild_id puzzle) thread_id) ;;
       SE.ret (Some (thread_id, thread_url))
     else
       (print ("Unable to create forum post for " +:+ puzzle_name) None ;;;
        SE.ret None))
    (fun e => print "Error creating forum post" (Some e) ;;; SE.ret None).

(** Updates the content of a forum post. *)
Definition edit_forum_post (post_id : pyval) (new_content : string)
    (embedded_urls : urlmap) : G unit :=
  send_message post_id new_content embedded_urls.

(** Adds a tag to a forum post. *)
Definition add_tag_to_post (post_id : pyval) (tag_id : option Z) : G unit :=
  match tag_id with
  | None => SE.ret tt
  | Some tag_id =>
      SE.try_except
        (response <- requests GET (Channel post_id) PNone ;;
         json_dict <- json_loads response ;;
         has_tags <- SE.lift (py_in "applied_tags" json_dict) ;;
         applied_tags <-
           (if has_tags : bool then SE.lift (py_getitem json_dict "applied_tags")
            else SE.ret (PList [])) ;;
         present <- SE.lift (py_in (py_str_int tag_id) applied_tags) ;;
         if negb present then
           applied_tags <- SE.lift (py_append applied_tags (PStr (py_str_int tag_id))) ;;
           _ <- requests PATCH (Channel post_id)
                  (PDict [("applied_tags", applied_tags)]) ;;
           SE.ret tt
         else SE.ret tt)
        (fun e => print "Error adding tag to post" (Some e))
  end.

(** Removes a tag from a forum post. *)
Definition remove_tag_from_post (post_id : pyval) (tag_id : option Z) : G unit :=
  match tag_id with
  | None => SE.ret tt
  | Some tag_id =>
      SE.try_except
        (response <- requests GET (Channel post_id) PNone ;;
         json_dict <- json_loads response ;;
         has_tags <- SE.lift (py_in "applied_tags" json_dict) ;;
         applied_tags <-
           (if has_tags : bool then SE.lift (py_getitem json_dict "applied_tags")
            else SE.ret (PList [])) ;;
         present <- SE.lift (py_in (py_str_int tag_id) applied_tags) ;;
         if present : bool then
           applied_tags <- SE.lift (py_remove applied_tags (py_str_int tag_id)) ;;
           _ <- requests PATCH (Channel post_id)
                  (PDict [("applied_tags", applied_tags)]) ;;
           SE.ret tt
         else SE.ret tt)
        (fun e => print "Error removing tag from post" (Some e))
  end.

(** Renames a forum post. *)
Definition edit_forum_post_name (post_id : pyval) (new_name : string) : G unit :=
  SE.try_except
    (_ <- requests PATCH (Channel post_id) (PDict [("name", PStr new_name)]) ;;
     SE.ret tt)
    (fun e => print "Error renaming forum post" (Some e)).

(** [ChatRole.objects.filter(name__iexact=tag_name, hunt=puzzle.hunt).first()] *)
Definition role_query (tag_name : string) (puzzle : Puzzle)
    (table : list ChatRole) : option ChatRole :=
  head (List.filter
          (fun role =>
             (iexact (role_name role) tag_name
              && Z.eqb (role_hunt role) (hunt_id (hunt puzzle)))%bool)
          table).

Definition handle_tag_added (puzzle_announcements_id : pyval)
    (puzzle : Puzzle) (tag_name : string) : G unit :=
  role <- SE.gets (fun w => role_query tag_name puzzle (chat_roles w)) ;;
  match role with
  | Some role =>
      announce puzzle_announcements_id
        (puzzle_name puzzle +:+ " was tagged with <@&" +:+ role_id role +:+ ">")
        (field_url_map puzzle)
  | None => SE.ret tt
  end.

Definition handle_tag_removed (puzzle_announcements_id : pyval)
    (puzzle : Puzzle) (tag_name : string) : G unit :=
  SE.ret tt.  (* No specific logic needed here *)

Definition handle_puzzle_rename (channel_id : pyval) (new_name : string) : G unit :=
  edit_forum_post_name channel_id new_name.

End DiscordChatService.

(** ** chat/service.py: the interface a room talks to *)

Module ChatService.
(** The operations [ChatRoom] calls on [self.get_service()]. A post's tags
    are the ints of the tag constants; [create_post] hands back whatever
    the implementation returns for the new post. *)
Record t : Type := {
  create_forum : pyval -> string -> G pyval;
  create_post : pyval -> string -> string -> list Z -> urlmap -> G pyval;
  create_channel_url : pyval -> pyval -> G url;
  send_message : pyval -> string -> urlmap -> G unit;
  announce : pyval -> string -> urlmap -> G unit;
  handle_tag_added : pyval -> Puzzle -> string -> G unit;
  handle_tag_removed : pyval -> Puzzle -> string -> G unit;
  rename_post : pyval -> string -> G unit;
  edit_post_tags : pyval -> list Z -> G unit;
}.
End ChatService.

(** One call of a room on its service, with the arguments as passed. *)
Inductive call : Type :=
| create_forum_call (guild_id : pyval) (name : string)
| create_post_call (forum_channel_id : pyval) (title body : string)
    (tags : list Z) (embeds : urlmap)
| create_channel_url_call (guild_id channel_id : pyval)
| send_message_call (channel_id : pyval) (msg : string) (embedded_urls : urlmap)
| announce_call (channel_id : pyval) (msg : string) (embedded_urls : urlmap)
| handle_tag_added_call (channel_id : pyval) (puzzle : Puzzle) (tag_name : string)
| handle_tag_removed_call (channel_id : pyval) (puzzle : Puzzle) (tag_name : string)
| rename_post_call (post_id : pyval) (new_name : string)
| edit_post_tags_call (post_id : pyval) (tags : list Z).

(** The operations of the interface that [DiscordChatService] does not define
    under the name [ChatRoom] calls them by; they come from the part of the
    repository that is not embedded here, and are parameters. *)
Record ForumOps : Type := {
  ops_create_forum : pyval -> string -> G pyval;
  ops_create_post : pyval -> string -> string -> list Z -> urlmap -> G pyval;
  ops_rename_post : pyval -> string -> G unit;
  ops_edit_post_tags : pyval -> list Z -> G unit;
}.

(** [settings.CHAT_SERVICES["DISCORD"].get_instance()]: the client's own
    methods, completed by [ops]. *)
Definition discord_service (ops : ForumOps) : ChatService.t := {|
  ChatService.create_forum := ops_create_forum ops;
  ChatService.create_post := ops_create_post ops;
  ChatService.create_channel_url :=
    fun guild_id channel_id =>
      SE.lift (DiscordChatService.create_channel_url guild_id channel_id);
  ChatService.send_message := DiscordChatService.send_message;
  ChatService.announce := DiscordChatService.announce;
  ChatService.handle_tag_added := DiscordChatService.handle_tag_added;
  ChatService.handle_tag_removed := DiscordChatService.handle_tag_removed;
  ChatService.rename_post := ops_rename_post ops;
  ChatService.edit_post_tags := ops_edit_post_tags ops;
|}.

(** ** chat/models.py *)

(** What a method of a room runs over: the room object itself (methods assign
    to its attributes), the world, the calls made on the service so far and
    the [save] calls made, each with the object's columns at that moment and
    its [update_fields]. *)
Record State : Type := {
  self : ChatRoom;
  world : World;
  calls : list call;
  saved : list (Columns * list string);
}.

Definition M (A : Type) : Type := SE.t State A.

(** A step of the service, run on the state's world. *)
Definition on_world {A} (g : G A) : M A :=
  fun st =>
    let '(r, w) := g (world st) in
    (r, {| self := self st; world := w; calls := calls st; saved := saved st |}).

(** [service.<operation>(...)]: the call is recorded, then made. *)
Definition invoke {A} (c : call) (g : G A) : M A :=
  fun st =>
    on_world g {| self := self st; world := world st;
                  calls := calls st ++ [c]; saved := saved st |}.

(** [self.<column> = v] *)
Definition assign (f : Columns -> Columns) : M unit :=
  SE.modify (fun st =>
    {| self := {| columns := f (columns (self st)); puzzle := puzzle (self st) |};
       world := world st; calls := calls st; saved := saved st |}).

Definition set_forum_channel_id (v : pyval) (c : Columns) : Columns :=
  {| service := service c; name := name c; forum_channel_id := v;
     post_id := post_id c; post_url := post_url c |}.

Definition set_post_id (v : pyval) (c : Columns) : Columns :=
  {| service := service c; name := name c; forum_channel_id := forum_channel_id c;
     post_id := v; post_url := post_url c |}.

Definition set_post_url (u : option url) (c : Columns) : Columns :=
  {| service := service c; name := name c; forum_channel_id := forum_channel_id c;
     post_id := post_id c; post_url := u |}.

(** [self.save(update_fields=update_fields)] *)
Definition save (update_fields : list string) : M unit :=
  SE.modify (fun st =>
    {| self := self st; world := world st; calls := calls st;
       saved := saved st ++ [(columns (self st), update_fields)] |}).

(** [queryset.order_by("created_on")]: a stable sort, oldest first. *)
Fixpoint insert_by_created_on (m : Meta) (l : list Meta) : list Meta :=
  match l with
  | [] => [m]
  | x :: rest =>
      if (meta_created_on m <=? meta_created_on x)%Z then m :: l
      else x :: insert_by_created_on m rest
  end.

Definition order_by_created_on (l : list Meta) : list Meta :=
  fold_right insert_by_created_on [] l.

(** A method takes as [service] the instance [self.get_service()] resolves
    to, [settings.CHAT_SERVICES[self.service].get_instance()]; the settings
    are configuration. *)
Module ChatRoom.

Definition get_guild_id (self : ChatRoom) : pyval :=
  discord_guild_id (hunt (puzzle self)).

Definition _get_forum_channel_name (self : ChatRoom) : option string :=
  if is_meta (puzzle self) then Some (puzzle_name (puzzle self))
  else
    let metas := order_by_created_on (metas (puzzle self)) in
    match metas with
    | m :: _ => Some (meta_name m)  (* default to the oldest created meta *)
    | [] => None
    end.

(** [self.puzzle.metas.order_by("created_on").all()[0]] *)
Definition first_meta (self : ChatRoom) : M Meta :=
  match order_by_created_on (metas (puzzle self)) with
  | m :: _ => SE.ret m
  | [] => SE.raise IndexError
  end.

Definition create_channels (service : ChatService.t) : M unit :=
  self0 <- SE.gets self ;;
  update_fields <-
    (if is_meta (puzzle self0) then
       if is_none (forum_channel_id self0) then
         v <- invoke (create_forum_call (get_guild_id self0) (name self0))
                (ChatService.create_forum service (get_guild_id self0) (name self0)) ;;
         assign (set_forum_channel_id v) ;;;
         SE.ret ["forum_channel_id"]
       else SE.ret []
     else
       match _get_forum_channel_name self0 with
       | Some meta_name =>
           m <- first_meta self0 ;;
           match meta_chat_room m with
           | Some meta_chat_room =>
               if is_none (post_id self0) then
                 v <- invoke
                        (create_post_call (forum_channel_id meta_chat_room)
                           (puzzle_name (puzzle self0)) "" [NEW_TAG] [])
                        (ChatService.create_post service
                           (forum_channel_id meta_chat_room)
                           (puzzle_name (puzzle self0)) "" [NEW_TAG] []) ;;
                 assign (set_post_id v) ;;;
                 u <- invoke (create_channel_url_call (get_guild_id self0) v)
                        (ChatService.create_channel_url service (get_guild_id self0) v) ;;
                 assign (set_post_url (Some u)) ;;;
                 SE.ret ["post_id"; "post_url"]
               else SE.ret []
           | None => SE.ret []
           end
       | None => SE.ret []
       end) ;;
  save update_fields.

(** Sends msg to text channel. embedded_urls is a map mapping display_text
    to url. *)
Definition send_message (service : ChatService.t) (msg : string)
    (embedded_urls : urlmap) : M unit :=
  self0 <- SE.gets self ;;
  if truthy (post_id self0) then
    invoke (send_message_call (post_id self0) msg embedded_urls)
      (ChatService.send_message service (post_id self0) msg embedded_urls)
  else SE.ret tt.

Definition announcements_channel (self : ChatRoom) : pyval :=
  discord_puzzle_announcements_channel_id (hunt (puzzle self)).

Definition archive_channels : M unit := SE.ret tt.

Definition update_category : M unit := SE.ret tt.

Definition unarchive_channels : M unit := SE.ret tt.

Definition delete_channels (check_if_used : bool) : M unit := SE.ret tt.

Definition send_and_announce_message (service : ChatService.t) (msg : string) : M unit :=
  self0 <- SE.gets self ;;
  invoke (announce_call (announcements_channel self0) msg [])
    (ChatService.announce service (announcements_channel self0) msg []) ;;;
  send_message service msg [].

(** [embedded_urls = {}] unless a puzzle is given. *)
Definition urls_of (puzzle : option Puzzle) : urlmap :=
  match puzzle with
  | Some p => field_url_map p
  | None => []
  end.

Definition send_and_announce_message_with_embedded_urls (service : ChatService.t)
    (msg : string) (puzzle : option Puzzle) : M unit :=
  let embedded_urls := urls_of puzzle in
  self0 <- SE.gets self ;;
  invoke (announce_call (announcements_channel self0) msg embedded_urls)
    (ChatService.announce service (announcements_channel self0) msg embedded_urls) ;;;
  send_message service msg embedded_urls.

Definition announce_message_with_embedded_urls (service : ChatService.t)
    (msg : string) (puzzle : option Puzzle) : M unit :=
  let embedded_urls := urls_of puzzle in
  self0 <- SE.gets self ;;
  invoke (announce_call (announcements_channel self0) msg embedded_urls)
    (ChatService.announce service (announcements_channel self0) msg embedded_urls).

Definition send_message_with_embedded_urls (service : ChatService.t)
    (msg : string) (puzzle : option Puzzle) : M unit :=
  send_message service msg (urls_of puzzle).

Definition handle_tag_added `{PuzzleTag} (service : ChatService.t)
    (puzzle : Puzzle) (tag_name : string) : M unit :=
  if (String.eqb tag_name HIGH_PRIORITY || String.eqb tag_name LOW_PRIORITY)%bool
  then send_message service ("This puzzle was marked " +:+ tag_name) []
  else
    (* Any service-specific logic should go in the handler below *)
    self0 <- SE.gets self ;;
    invoke (handle_tag_added_call (announcements_channel self0) puzzle tag_name)
      (ChatService.handle_tag_added service (announcements_channel self0)
         puzzle tag_name).

Definition handle_tag_removed (service : ChatService.t)
    (puzzle : Puzzle) (tag_name : string) : M unit :=
  self0 <- SE.gets self ;;
  invoke (handle_tag_removed_call (announcements_channel self0) puzzle tag_name)
    (ChatService.handle_tag_removed service (announcements_channel self0)
       puzzle tag_name).

Definition handle_puzzle_rename (service : ChatService.t) (new_name : string) : M unit :=
  self0 <- SE.gets self ;;
  if truthy (post_id self0) then
    invoke (rename_post_call (post_id self0) new_name)
      (ChatService.rename_post service (post_id self0) new_name)
  else SE.ret tt.

Definition handle_puzzle_solved (service : ChatService.t) : M unit :=
  self0 <- SE.gets self ;;
  if truthy (post_id self0) then
    let tags := [SOLVED_TAG] in
    invoke (edit_post_tags_call (post_id self0) tags)
      (ChatService.edit_post_tags service (post_id self0) tags)
  else SE.ret tt.

Definition handle_puzzle_unsolved (service : ChatService.t) : M unit :=
  self0 <- SE.gets self ;;
  if truthy (post_id self0) then
    let tags := [WORKING_TAG] in
    invoke (edit_post_tags_call (post_id self0) tags)
      (ChatService.edit_post_tags service (post_id self0) tags)
  else SE.ret tt.

End ChatRoom.

(** ** A simulated gateway and sample data *)

Module Simulated.
(** A stand-in for the four parametric operations that answers from a
    script and leaves the world alone: [forum_answer] is what
    [create_forum] does, [post_answer] what [create_post] does. A failure
    the gateway swallowed is the answer [Ok PNone]. *)
Definition ops (forum_answer post_answer : result pyval) : ForumOps := {|
  ops_create_forum := fun _ _ => SE.lift forum_answer;
  ops_create_post := fun _ _ _ _ _ => SE.lift post_answer;
  ops_rename_post := fun _ _ => SE.ret tt;
  ops_edit_post_tags := fun _ _ => SE.ret tt;
|}.

Definition empty_world : World := {|
  remote := ∅; next_id := 1%N; script := []; log := []; stdout := [];
  chat_roles := [];
|}.

Definition sample_hunt : Hunt := {|
  hunt_id := 1;
  discord_guild_id := PStr "guild";
  discord_puzzle_announcements_channel_id := PStr "announcements";
|}.

Definition room (nm : string) (forum post : pyval) : Columns := {|
  service := "DISCORD"; name := nm; forum_channel_id := forum;
  post_id := post; post_url := None;
|}.

(** A meta puzzle and its room. *)
Definition meta_room (forum : pyval) : ChatRoom := {|
  columns := room "Meta" forum PNone;
  puzzle := {| puzzle_name := "Meta"; is_meta := true; hunt := sample_hunt;
               field_url_map := []; metas := [] |};
|}.

(** A feeder puzzle's room, linked to the given metas. *)
Definition feeder_room (post : pyval) (linked : list Meta) : ChatRoom := {|
  columns := room "Feeder" PNone post;
  puzzle := {| puzzle_name := "Feeder"; is_meta := false; hunt := sample_hunt;
               field_url_map := []; metas := linked |};
|}.

Definition start (r : ChatRoom) (w : World) : State :=
  {| self := r; world := w; calls := []; saved := [] |}.

Definition sample_tags : PuzzleTag :=
  {| HIGH_PRIORITY := "HIGH PRIORITY"; LOW_PRIORITY := "LOW PRIORITY" |}.
End Simulated.

(** ** Notions the properties are stated with *)

Definition populated (r : ChatRoom) : Prop :=
  if is_meta (puzzle r) then forum_channel_id r <> PNone else post_id r <> PNone.

(** [puzzle.metas.order_by("created_on").all()[0]], when there is one. *)
Definition oldest_meta (p : Puzzle) : option Meta :=
  head (order_by_created_on (metas p)).





Definition is_priority `{PuzzleTag} (tag_name : string) : Prop :=
  tag_name = HIGH_PRIORITY \/ tag_name = LOW_PRIORITY.

(** The lookup in the specification's words: given a hunt and a tag name, the
    remote id of the first role of that hunt whose name is the tag name up to
    case, or none. *)
Fixpoint first_matching_role (hunt : Z) (tag_name : string) (table : list ChatRole)
  : option string :=
  match table with
  | [] => None
  | role :: rest =>
      if (Z.eqb (role_hunt role) hunt && iexact (role_name role) tag_name)%bool
      then Some (role_id role)
      else first_matching_role hunt tag_name rest
  end.

Definition mention (puzzle : Puzzle) (rid : string) : string :=
  puzzle_name puzzle +:+ " was tagged with <@&" +:+ rid +:+ ">".

Definition sample_roles : list ChatRole :=
  [{| role_hunt := 2; role_service := "DISCORD"; role_name := "logic"; role_id := "7" |};
   {| role_hunt := 1; role_service := "DISCORD"; role_name := "Logic"; role_id := "42" |};
   {| role_hunt := 1; role_service := "DISCORD"; role_name := "LOGIC"; role_id := "43" |}].

Definition world_with_roles : World := {|
  remote := ∅; next_id := 1%N; script := []; log := []; stdout := [];
  chat_roles := sample_roles;
|}.

(** The call comes back with a value: nothing was raised to the caller. *)
Definition returns {S A : Type} (out : result A * S) : Prop :=
  exists a, fst out = Ok a.

(** Adding a tag to the set a channel object carries under "applied_tags"
    (a missing key is the empty set): nothing changes when the tag is there. *)
Definition add_tag (tag : string) (obj : list (string * pyval))
  : list (string * pyval) :=
  match dict_get "applied_tags" obj with
  | None => dict_set "applied_tags" (PList [PStr tag]) obj
  | Some (PList l) =>
      if existsb (is_str tag) l then obj
      else dict_set "applied_tags" (PList (l ++ [PStr tag])) obj
  | Some _ => obj
  end.

(** Taking a tag out of that set: nothing changes when the tag is not there. *)
Definition remove_tag (tag : string) (obj : list (string * pyval))
  : list (string * pyval) :=
  match dict_get "applied_tags" obj with
  | Some (PList l) =>
      match remove_first tag l with
      | Some l' => dict_set "applied_tags" (PList l') obj
      | None => obj
      end
  | _ => obj
  end.

(** A change of one post's object in the service's store; a post the service
    does not know stays unknown. *)
Definition on_post (f : list (string * pyval) -> list (string * pyval))
    (post_id : pyval) (r : gmap string (list (string * pyval)))
  : gmap string (list (string * pyval)) :=
  match post_id with
  | PStr c =>
      match r !! c with
      | Some obj => <[c := f obj]> r
      | None => r
      end
  | _ => r
  end.

(** The tags of a post are a set: no tag is listed twice. *)
Definition tags_are_sets (r : gmap string (list (string * pyval))) : Prop :=
  forall c obj l,
    r !! c = Some obj -> dict_get "applied_tags" obj = Some (PList l) -> NoDup l.

(** The object the service shows for a channel id: the stored one, or the
    error object for a channel it does not know. *)
Definition channel_object (channel_id : pyval)
    (r : gmap string (list (string * pyval))) : list (string * pyval) :=
  match channel_id with
  | PStr c =>
      match r !! c with
      | Some obj => obj
      | None => [("message", PStr "Unknown Channel"); ("code", PInt 10003)]
      end
  | _ => [("message", PStr "Unknown Channel"); ("code", PInt 10003)]
  end.

Definition get_request (channel_id : pyval) : request :=
  {| verb := GET; target := Channel channel_id; payload := PNone |}.

Definition patch_request (channel_id : pyval) (fields : list (string * pyval)) : request :=
  {| verb := PATCH; target := Channel channel_id; payload := PDict fields |}.

Definition world_with_post (tags : list pyval) : World := {|
  remote := {[ "55" := [("id", PStr "55"); ("name", PStr "Feeder");
                         ("applied_tags", PList tags)] ]};
  next_id := 100%N; script := []; log := []; stdout := []; chat_roles := [];
|}.

(** Modelled from the spec: the gateway operation [edit_tags(post_id, tags)],
    which [ChatRoom] calls as [edit_post_tags] and whose code is not in the
    sources embedded here. By the contract it issues one request that replaces the
    tag set of the post with [tags], and a failure of the exchange is caught,
    logged and swallowed. *)
Definition spec_edit_post_tags (post_id : pyval) (tags : list Z) : G unit :=
  SE.try_except
    (_ <- requests PATCH (Channel post_id)
            (PDict [("applied_tags",
                     PList (map (fun tag_id => PStr (py_str_int tag_id)) tags))]) ;;
     SE.ret tt)
    (fun e => print "Error editing post tags" (Some e)).

(** [ops] with [edit_post_tags] as the contract has it. *)
Definition with_spec_edit_post_tags (ops : ForumOps) : ForumOps := {|
  ops_create_forum := ops_create_forum ops;
  ops_create_post := ops_create_post ops;
  ops_rename_post := ops_rename_post ops;
  ops_edit_post_tags := spec_edit_post_tags;
|}.

(** The tags the service holds for a post. *)
Definition applied_tags_of (post_id : pyval) (w : World) : option pyval :=
  dict_get "applied_tags" (channel_object post_id (remote w)).

(** The service has an object for the post. *)
Definition known_post (post_id : pyval) (w : World) : Prop :=
  exists c obj, post_id = PStr c /\ remote w !! c = Some obj.

Definition tag_set (tags : list Z) : pyval :=
  PList (map (fun tag_id => PStr (py_str_int tag_id)) tags).

(** The parameters filled with the client's own methods of the same purpose,
    for sample runs: forum-channel creation, post renaming, and the tag
    replacement of the contract. *)
Definition client_ops (post_answer : result pyval) : ForumOps := {|
  ops_create_forum := DiscordChatService.create_forum_channel;
  ops_create_post := fun _ _ _ _ _ => SE.lift post_answer;
  ops_rename_post := DiscordChatService.edit_forum_post_name;
  ops_edit_post_tags := spec_edit_post_tags;
|}.

(** ** Notions for the further properties *)

(** The field [_make_link_embeds] makes of one link. *)
Definition link_field (text_url : string * string) : pyval :=
  PDict [("name", PStr (fst text_url));
         ("value", PStr ("[link](" +:+ snd text_url +:+ ")"));
         ("inline", PBool true)].

Definition post_channel_request (guild_id : pyval) (name : string) (chan_type : Z)
    (parent_id : pyval) : request :=
  {| verb := POST; target := GuildChannels guild_id;
     payload := PDict [("name", PStr name); ("type", PInt chan_type);
                       ("parent_id", parent_id)] |}.

Definition post_thread_request (forum_channel_id : pyval) (puzzle_name content : string)
    (tag_ids : option (list Z)) (puzzle : Puzzle) : request :=
  {| verb := POST; target := ChannelThreads forum_channel_id;
     payload :=
       PDict [("name", PStr puzzle_name);
              ("message",
               PDict [("content", PStr content);
                      ("embeds",
                       DiscordChatService._make_link_embeds (field_url_map puzzle))]);
              ("applied_tags",
               PList match tag_ids with
                     | Some ids => map (fun tag_id => PStr (py_str_int tag_id)) ids
                     | None => []
                     end)] |}.

Definition message_request (channel_id : pyval) (msg : string) (embedded_urls : urlmap)
  : request :=
  patch_request channel_id
    [("content", PStr msg);
     ("embeds", DiscordChatService._make_link_embeds embedded_urls)].

(** A PATCH of the applied tags of one post. *)
Definition is_tags_patch (post_id : pyval) (r : request) : Prop :=
  exists tags, r = patch_request post_id [("applied_tags", PList tags)].

(** The id the service gives to the next object it creates. *)
Definition fresh_id (w : World) : string :=
  NilZero.string_of_uint (N.to_uint (next_id w)).

(** The object the service stores for a forum channel created by
    [create_forum_channel]. *)
Definition forum_object (g name id : string) : list (string * pyval) :=
  [("name", PStr name); ("type", PInt CHANNEL_FORUM_TYPE); ("parent_id", PNone);
   ("guild_id", PStr g); ("id", PStr id)].

Definition list_channels_request (guild_id : pyval) : request :=
  {| verb := GET; target := GuildChannels guild_id; payload := PNone |}.

(** A role answers a tag name in a puzzle's hunt. *)
Definition role_matches (tag_name : string) (puzzle : Puzzle) (role : ChatRole) : Prop :=
  role_hunt role = hunt_id (hunt puzzle) /\ iexact (role_name role) tag_name = true.

(** The requests of a message to a channel: one when the channel id is set. *)
Definition message_requests (channel_id : pyval) (msg : string) (embedded_urls : urlmap)
  : list request :=
  if truthy channel_id then [message_request channel_id msg embedded_urls] else [].

(** * Properties *)

(** ** Unfolding the monad *)

Ltac se_unfold :=
  unfold SE.bind, SE.ret, SE.raise, SE.try_except, SE.lift, SE.gets, SE.modify,
    invoke, on_world, assign, save, print in *.

Lemma try_except_returns {S A} (m : SE.t S A) (h : exn -> SE.t S A) (s : S) :
  (forall e s', exists a, fst (h e s') = Ok a) ->
  exists a, fst (SE.try_except m h s) = Ok a.
Proof.
  intros Hh. unfold SE.try_except.
  destruct (m s) as [[a | e] s']; simpl; eauto.
Qed.

(** ** create_channels on a room whose identifier is already there *)

Lemma is_none_false (v : pyval) : v <> PNone -> is_none v = false.
Proof. destruct v; simpl; congruence. Qed.

(** C4. On a room whose applicable identifier is populated (the forum-channel
    id of a meta puzzle's room, the post id of any other room),
    [create_channels] calls the service not at all, sends nothing, leaves the
    room's attributes as they are and returns; the only thing it does is the
    closing [save] with an empty [update_fields]. *)
Theorem create_channels_populated_noop (service : ChatService.t) (st : State) :
  populated (self st) ->
  ChatRoom.create_channels service st
  = (Ok tt, {| self := self st; world := world st; calls := calls st;
               saved := saved st ++ [(columns (self st), [])] |}).
Proof.
  unfold populated, ChatRoom.create_channels, ChatRoom._get_forum_channel_name,
    ChatRoom.first_meta.
  intros Hp. se_unfold. simpl.
  destruct (is_meta (puzzle (self st))) eqn:Hm.
  - rewrite (is_none_false _ Hp). reflexivity.
  - destruct (order_by_created_on (metas (puzzle (self st)))) as [| m rest]; simpl.
    + reflexivity.
    + destruct (meta_chat_room m); simpl; [| reflexivity].
      rewrite (is_none_false _ Hp). reflexivity.
Qed.

Lemma create_channels_populated_noop_witness :
  populated (Simulated.meta_room (PStr "100"))
  /\ ChatRoom.create_channels
       (discord_service (Simulated.ops (Raise ConnectionError) (Raise ConnectionError)))
       (Simulated.start (Simulated.meta_room (PStr "100")) Simulated.empty_world)
     = (Ok tt,
        {| self := Simulated.meta_room (PStr "100");
           world := Simulated.empty_world; calls := [];
           saved := [(columns (Simulated.meta_room (PStr "100")), [])] |}).
Proof.
  split.
  - simpl. discriminate.
  - apply (create_channels_populated_noop
             (discord_service (Simulated.ops (Raise ConnectionError) (Raise ConnectionError)))
             (Simulated.start (Simulated.meta_room (PStr "100")) Simulated.empty_world)).
    simpl. discriminate.
Defined.

(** ** create_channels on a meta puzzle's room *)

(** What happens when the service has no id to return: the call is made all
    the same and the forum-channel id stays null. *)
Lemma create_channels_meta_without_answer
    (service : ChatService.t) (st : State) (w' : World) :
  is_meta (puzzle (self st)) = true ->
  forum_channel_id (self st) = PNone ->
  ChatService.create_forum service
    (ChatRoom.get_guild_id (self st)) (name (self st)) (world st) = (Ok PNone, w') ->
  let st' := snd (ChatRoom.create_channels service st) in
  calls st'
  = calls st ++ [create_forum_call (ChatRoom.get_guild_id (self st)) (name (self st))]
  /\ forum_channel_id (self st') = PNone.
Proof.
  intros Hm Hf Hc. unfold ChatRoom.create_channels. se_unfold. simpl.
  rewrite Hm, Hf. simpl. rewrite Hc. simpl. auto.
Qed.

(** ** The transport *)

Lemma create_object_frame (fields : list (string * pyval)) (w : World) :
  let w' := snd (create_object fields w) in
  log w' = log w /\ script w' = script w /\ stdout w' = stdout w
  /\ chat_roles w' = chat_roles w.
Proof. unfold create_object. simpl. auto. Qed.

(** Serving a request touches the service's objects and id counter only. *)
Lemma serve_frame (r : request) (w : World) :
  let w' := snd (serve r w) in
  log w' = log w /\ script w' = script w /\ stdout w' = stdout w
  /\ chat_roles w' = chat_roles w.
Proof.
  unfold serve.
  destruct (verb r), (target r) as [[]|[]|[]|[]], (payload r); simpl; auto;
    try (destruct (remote w !! s); simpl; auto);
    apply create_object_frame.
Qed.

(** Every call of [requests] is logged, whatever becomes of it. *)
Lemma requests_log (v : method) (e : endpoint) (body : pyval) (w : World) :
  log (snd (requests v e body w))
  = log w ++ [{| verb := v; target := e; payload := body |}].
Proof.
  unfold requests. simpl.
  destruct (script w) as [| [ | | | c] rest]; simpl;
    repeat match goal with
      | |- context [serve ?r ?w0] =>
          let H := fresh in
          pose proof (serve_frame r w0) as H; simpl in H;
          destruct (serve r w0); simpl in *; destruct H as [-> _]
      end; reflexivity.
Qed.

Lemma requests_frame (v : method) (e : endpoint) (body : pyval) (w : World) :
  let w' := snd (requests v e body w) in
  script w' = tail (script w) /\ stdout w' = stdout w
  /\ chat_roles w' = chat_roles w.
Proof.
  unfold requests. simpl.
  destruct (script w) as [| [ | | | c] rest] eqn:Hs; simpl;
    repeat match goal with
      | |- context [serve ?r ?w0] =>
          let H := fresh in
          pose proof (serve_frame r w0) as H; simpl in H;
          destruct (serve r w0); simpl in *;
          destruct H as (_ & -> & -> & ->)
      end; rewrite ?Hs; auto.
Qed.

(** ** send_message *)

Lemma discord_send_message_log (channel_id : pyval) (msg : string)
    (embedded_urls : urlmap) (w : World) :
  let out := DiscordChatService.send_message channel_id msg embedded_urls w in
  fst out = Ok tt
  /\ log (snd out)
     = log w
       ++ [{| verb := PATCH; target := Channel channel_id;
              payload :=
                PDict [("content", PStr msg);
                       ("embeds", DiscordChatService._make_link_embeds embedded_urls)] |}].
Proof.
  unfold DiscordChatService.send_message. se_unfold. simpl.
  pose proof (requests_log PATCH (Channel channel_id)
                (PDict [("content", PStr msg);
                        ("embeds", DiscordChatService._make_link_embeds embedded_urls)]) w)
    as Hlog.
  destruct (requests _ _ _ w) as [[c | e] w']; simpl in *; auto.
Qed.

(** C8. [send_message] on a room whose post id is missing (null or empty)
    returns with the whole state as it was: no call on the service, no request.
    On a room that has a post id it calls the service's [send_message] exactly
    once with that id, the message and the links; with the Discord client that
    is exactly one PATCH request on the post's channel. *)
Theorem send_message_forwards
    (service : ChatService.t) (ops : ForumOps)
    (msg : string) (embedded_urls : urlmap) (st : State) :
  (truthy (post_id (self st)) = false ->
     ChatRoom.send_message service msg embedded_urls st = (Ok tt, st))
  /\ (truthy (post_id (self st)) = true ->
      let out := ChatRoom.send_message service msg embedded_urls st in
      calls (snd out)
      = calls st ++ [send_message_call (post_id (self st)) msg embedded_urls]
      /\ (fst out, world (snd out))
         = ChatService.send_message service (post_id (self st)) msg embedded_urls (world st)
      /\ self (snd out) = self st
      /\ saved (snd out) = saved st)
  /\ (truthy (post_id (self st)) = true ->
      let out := ChatRoom.send_message (discord_service ops) msg embedded_urls st in
      fst out = Ok tt
      /\ log (world (snd out))
         = log (world st)
           ++ [{| verb := PATCH; target := Channel (post_id (self st));
                  payload :=
                    PDict [("content", PStr msg);
                           ("embeds", DiscordChatService._make_link_embeds embedded_urls)] |}]).
Proof.
  unfold ChatRoom.send_message. se_unfold. simpl.
  split; [| split]; intros Ht; rewrite Ht; simpl.
  - reflexivity.
  - destruct (ChatService.send_message service _ _ _ _) as [r w]; simpl. auto.
  - pose proof (discord_send_message_log (post_id (self st)) msg embedded_urls (world st))
      as H.
    destruct (DiscordChatService.send_message _ _ _ _) as [r w]; simpl in *. exact H.
Qed.

Lemma send_message_forwards_witness :
  let st := Simulated.start (Simulated.feeder_room (PStr "55") []) Simulated.empty_world in
  let out :=
    ChatRoom.send_message
      (discord_service (Simulated.ops (Ok PNone) (Ok PNone))) "hello" [] st in
  fst out = Ok tt
  /\ log (world (snd out))
     = [{| verb := PATCH; target := Channel (PStr "55");
           payload := PDict [("content", PStr "hello"); ("embeds", PNone)] |}].
Proof.
  exact (proj2 (proj2 (send_message_forwards
                         (discord_service (Simulated.ops (Ok PNone) (Ok PNone)))
                         (Simulated.ops (Ok PNone) (Ok PNone)) "hello" []
                         (Simulated.start (Simulated.feeder_room (PStr "55") [])
                            Simulated.empty_world)))
           eq_refl).
Defined.

(** ** The oldest linked meta *)







(** ** create_channels on any other room *)





(** ** create_channels when the post could not be created *)

(** C1. The room of a non-meta puzzle has no post id, its oldest meta has a
    room, and [create_post] fails: the service either swallowed the failure
    and returned [None], or raised. Then [create_channels] leaves the post id
    and the post URL unset and saves nothing, but it does not return: it
    raises, and after a swallowed failure what it raises is the
    "Missing guild_id or channel_id" of [create_channel_url], called with the
    [None] it was handed. *)
Theorem create_channels_failed_post_raises
    (ops : ForumOps) (st : State) (m : Meta) (room : Columns) :
  is_meta (puzzle (self st)) = false ->
  oldest_meta (puzzle (self st)) = Some m ->
  meta_chat_room m = Some room ->
  post_id (self st) = PNone ->
  (fst (ops_create_post ops (forum_channel_id room)
          (puzzle_name (puzzle (self st))) "" [NEW_TAG] [] (world st)) = Ok PNone
   \/ exists e,
        fst (ops_create_post ops (forum_channel_id room)
               (puzzle_name (puzzle (self st))) "" [NEW_TAG] [] (world st)) = Raise e) ->
  let out := ChatRoom.create_channels (discord_service ops) st in
  raised (fst out) = true
  /\ post_id (self (snd out)) = PNone
  /\ post_url (self (snd out)) = post_url (self st)
  /\ saved (snd out) = saved st
  /\ (fst (ops_create_post ops (forum_channel_id room)
             (puzzle_name (puzzle (self st))) "" [NEW_TAG] [] (world st)) = Ok PNone ->
      fst out = Raise (PyException "Missing guild_id or channel_id")).
Proof.
  intros Hm Ho Hr Hp Hfail.
  unfold ChatRoom.create_channels, ChatRoom._get_forum_channel_name,
    ChatRoom.first_meta, oldest_meta in *.
  se_unfold. simpl in *. rewrite Hm.
  destruct (order_by_created_on (metas (puzzle (self st)))) as [| m0 rest];
    [discriminate |].
  simpl in Ho. injection Ho as ->. simpl. rewrite Hr, Hp. simpl.
  destruct (ops_create_post ops _ _ _ _ _ _) as [[v | e] w1]; simpl in *.
  - destruct Hfail as [Hnone | [e He]]; [| discriminate].
    injection Hnone as ->.
    unfold DiscordChatService.create_channel_url. simpl.
    rewrite orb_true_r. simpl. rewrite ?Hp. repeat split; reflexivity.
  - rewrite ?Hp. repeat split; try reflexivity. intros; discriminate.
Qed.

(** The failing run: a feeder room without a post, its meta's forum channel in
    place, a guild id configured, and a gateway that swallowed a network
    failure on [create_post]. *)
Lemma create_channels_failed_post_raises_witness :
  let linked :=
    [{| meta_name := "Meta"; meta_created_on := 10;
        meta_chat_room := Some (Simulated.room "Meta" (PStr "200") PNone) |}] in
  let st := Simulated.start (Simulated.feeder_room PNone linked) Simulated.empty_world in
  let out :=
    ChatRoom.create_channels
      (discord_service (Simulated.ops (Ok PNone) (Ok PNone))) st in
  fst out = Raise (PyException "Missing guild_id or channel_id")
  /\ raised (fst out) = true
  /\ post_id (self (snd out)) = PNone
  /\ post_url (self (snd out)) = None
  /\ saved (snd out) = [].
Proof.
  cbv zeta.
  pose proof (create_channels_failed_post_raises
                (Simulated.ops (Ok PNone) (Ok PNone))
                (Simulated.start
                   (Simulated.feeder_room PNone
                      [{| meta_name := "Meta"; meta_created_on := 10;
                          meta_chat_room :=
                            Some (Simulated.room "Meta" (PStr "200") PNone) |}])
                   Simulated.empty_world)
                _ _ eq_refl eq_refl eq_refl eq_refl (or_introl eq_refl))
    as (H1 & H2 & H3 & H4 & H5).
  split; [exact (H5 eq_refl) |]. auto.
Defined.

(** ** handle_tag_added *)

Lemma is_priority_test `{PuzzleTag} (tag_name : string) :
  (String.eqb tag_name HIGH_PRIORITY || String.eqb tag_name LOW_PRIORITY)%bool = true
  <-> is_priority tag_name.
Proof.
  unfold is_priority.
  rewrite orb_true_iff, !String.eqb_eq. reflexivity.
Qed.

(** C2, as amended. For a tag name that is neither priority tag,
    [handle_tag_added] forwards the tag to the service's tag handler, once,
    with the hunt's announcements channel. For HIGH_PRIORITY and LOW_PRIORITY
    it sends the direct notification to the room's post through
    [send_message] (nothing when the room has no post id) and returns; the tag
    is not forwarded. *)
Theorem handle_tag_added_dispatch `{PuzzleTag}
    (service : ChatService.t) (puzzle : Puzzle) (tag_name : string) (st : State) :
  (~ is_priority tag_name ->
     let out := ChatRoom.handle_tag_added service puzzle tag_name st in
     calls (snd out)
     = calls st
       ++ [handle_tag_added_call (ChatRoom.announcements_channel (self st))
             puzzle tag_name]
     /\ (fst out, world (snd out))
        = ChatService.handle_tag_added service
            (ChatRoom.announcements_channel (self st)) puzzle tag_name (world st))
  /\ (is_priority tag_name ->
      let out := ChatRoom.handle_tag_added service puzzle tag_name st in
      out = ChatRoom.send_message service ("This puzzle was marked " +:+ tag_name) [] st
      /\ calls (snd out)
         = calls st
           ++ (if truthy (post_id (self st))
               then [send_message_call (post_id (self st))
                       ("This puzzle was marked " +:+ tag_name) []]
               else [])).
Proof.
  unfold ChatRoom.handle_tag_added. split; intros Hp.
  - destruct (String.eqb tag_name HIGH_PRIORITY || String.eqb tag_name LOW_PRIORITY)%bool
      eqn:Ht.
    + apply is_priority_test in Ht. contradiction.
    + se_unfold. simpl.
      destruct (ChatService.handle_tag_added service _ _ _ _) as [r w]; simpl. auto.
  - apply is_priority_test in Hp. rewrite Hp. cbv zeta. split; [reflexivity |].
    unfold ChatRoom.send_message. se_unfold. simpl.
    destruct (truthy (post_id (self st))); simpl.
    + destruct (ChatService.send_message service _ _ _ _) as [r w]; reflexivity.
    + rewrite app_nil_r. reflexivity.
Qed.

Lemma handle_tag_added_dispatch_witness :
  let st := Simulated.start (Simulated.feeder_room (PStr "55") []) Simulated.empty_world in
  let out :=
    @ChatRoom.handle_tag_added Simulated.sample_tags
      (discord_service (Simulated.ops (Ok PNone) (Ok PNone)))
      (puzzle (self st)) "Logic" st in
  calls (snd out)
  = [handle_tag_added_call (PStr "announcements") (puzzle (self st)) "Logic"].
Proof.
  cbv zeta.
  refine (proj1 (proj1 (@handle_tag_added_dispatch Simulated.sample_tags
                          (discord_service (Simulated.ops (Ok PNone) (Ok PNone)))
                          (puzzle (Simulated.feeder_room (PStr "55") []))
                          "Logic"
                          (Simulated.start (Simulated.feeder_room (PStr "55") [])
                             Simulated.empty_world)) _)).
  unfold is_priority. simpl. intros [Hh | Hl]; discriminate.
Defined.

(** C2, as stated, fails on a priority tag: the notification goes to the
    room's post and the tag never reaches the service's tag handler. *)
Lemma handle_tag_added_priority_not_forwarded :
  let st := Simulated.start (Simulated.feeder_room (PStr "55") []) Simulated.empty_world in
  let out :=
    @ChatRoom.handle_tag_added Simulated.sample_tags
      (discord_service (Simulated.ops (Ok PNone) (Ok PNone)))
      (puzzle (self st)) (@HIGH_PRIORITY Simulated.sample_tags) st in
  calls (snd out)
  = [send_message_call (PStr "55") "This puzzle was marked HIGH PRIORITY" []]
  /\ ~ In (handle_tag_added_call (PStr "announcements") (puzzle (self st))
            (@HIGH_PRIORITY Simulated.sample_tags))
       (calls (snd out)).
Proof.
  cbv zeta. split.
  - reflexivity.
  - simpl. intros [Hc | []]. discriminate.
Qed.

(** ** The role a tag mentions *)

Lemma role_query_first_matching (tag_name : string) (puzzle : Puzzle)
    (table : list ChatRole) :
  option_map role_id (DiscordChatService.role_query tag_name puzzle table)
  = first_matching_role (hunt_id (hunt puzzle)) tag_name table.
Proof.
  unfold DiscordChatService.role_query.
  induction table as [| role rest IH]; simpl.
  - reflexivity.
  - rewrite andb_comm.
    destruct (Z.eqb (role_hunt role) (hunt_id (hunt puzzle))
              && iexact (role_name role) tag_name)%bool; simpl.
    + reflexivity.
    + exact IH.
Qed.

Lemma iexact_ignores_case : iexact "Logic" "LOGIC" = true /\ iexact "Logic" "Logos" = false.
Proof. split; reflexivity. Qed.

(** C9, as amended. The tag-added handling of the client looks the role up by
    name, ignoring case, among the roles of the puzzle's hunt and takes the
    first one. Without a match nothing happens at all. With a match the
    mention of that role's id is handed to [announce]: it is posted, in one
    PATCH request, when the announcements channel id is set, and dropped
    without a request when it is not. *)
Theorem handle_tag_added_mentions_role
    (puzzle_announcements_id : pyval) (puzzle : Puzzle) (tag_name : string)
    (w : World) :
  let found := first_matching_role (hunt_id (hunt puzzle)) tag_name (chat_roles w) in
  let out :=
    DiscordChatService.handle_tag_added puzzle_announcements_id puzzle tag_name w in
  option_map role_id (DiscordChatService.role_query tag_name puzzle (chat_roles w))
  = found
  /\ (found = None -> out = (Ok tt, w))
  /\ (forall rid, found = Some rid ->
        out = DiscordChatService.announce puzzle_announcements_id
                (mention puzzle rid) (field_url_map puzzle) w
        /\ (truthy puzzle_announcements_id = true ->
            fst out = Ok tt
            /\ log (snd out)
               = log w
                 ++ [{| verb := PATCH; target := Channel puzzle_announcements_id;
                        payload :=
                          PDict [("content", PStr (mention puzzle rid));
                                 ("embeds",
                                  DiscordChatService._make_link_embeds
                                    (field_url_map puzzle))] |}])
        /\ (truthy puzzle_announcements_id = false -> out = (Ok tt, w))).
Proof.
  cbv zeta.
  pose proof (role_query_first_matching tag_name puzzle (chat_roles w)) as Hq.
  split; [exact Hq |].
  unfold DiscordChatService.handle_tag_added. se_unfold. simpl.
  destruct (DiscordChatService.role_query tag_name puzzle (chat_roles w))
    as [role |]; simpl in Hq; rewrite <- Hq.
  - split; [discriminate |].
    intros rid [= <-]. split; [reflexivity |].
    unfold DiscordChatService.announce, mention.
    split; intros Ht; rewrite Ht.
    + apply discord_send_message_log.
    + reflexivity.
  - split; [reflexivity |]. discriminate.
Qed.

Lemma handle_tag_added_mentions_role_witness :
  let p := puzzle (Simulated.feeder_room PNone []) in
  let out :=
    DiscordChatService.handle_tag_added (PStr "announcements") p "LOGIC"
      world_with_roles in
  fst out = Ok tt
  /\ log (snd out)
     = [{| verb := PATCH; target := Channel (PStr "announcements");
           payload :=
             PDict [("content", PStr "Feeder was tagged with <@&42>");
                    ("embeds", PNone)] |}].
Proof.
  cbv zeta.
  exact (proj1 (proj2 (proj2 (proj2
           (handle_tag_added_mentions_role (PStr "announcements")
              (puzzle (Simulated.feeder_room PNone [])) "LOGIC" world_with_roles))
           "42" eq_refl)) eq_refl).
Defined.

(** C9, as stated, fails when the hunt has no announcements channel: the role
    is found and nothing is announced. *)
Lemma handle_tag_added_without_channel :
  let p := puzzle (Simulated.feeder_room PNone []) in
  first_matching_role (hunt_id (hunt p)) "LOGIC" (chat_roles world_with_roles)
  = Some "42"
  /\ DiscordChatService.handle_tag_added PNone p "LOGIC" world_with_roles
     = (Ok tt, world_with_roles).
Proof. cbv zeta. split; reflexivity. Qed.

(** ** Failures stay inside the client *)

Lemma print_returns (text : string) (e : option exn) (w : World) :
  returns (print text e w).
Proof. exists tt. reflexivity. Qed.

Lemma swallowed {A} (m : G A) (text : string) (a : A) (w : World) :
  returns (SE.try_except m (fun e => print text (Some e) ;;; SE.ret a) w).
Proof.
  apply try_except_returns. intros e w'. exists a. reflexivity.
Qed.

Lemma swallowed_unit (m : G unit) (text : string) (w : World) :
  returns (SE.try_except m (fun e => print text (Some e)) w).
Proof.
  apply try_except_returns. intros e w'. exists tt. reflexivity.
Qed.

(** C7. Whatever the transport does (the script of faults of [w] is
    arbitrary: a request may be refused, its answer lost, or any content at
    all, JSON or not, may come back) [send_message], [create_forum_post],
    [add_tag_to_post], [remove_tag_from_post], [edit_forum_post_name] and the
    channel creation of [_create_channel_impl] return to their caller, as do
    [announce], [edit_forum_post], the tag handler and the role and channel
    listings. What is raised is the missing identifier: [create_forum_channel]
    and [_get_channels_for_guild] raise exactly when the guild id is missing,
    before any request, and [create_channel_url] exactly when the guild id or
    the channel id is. *)
Theorem gateway_swallows_failures (w : World) :
  (forall channel_id msg urls,
      returns (DiscordChatService.send_message channel_id msg urls w))
  /\ (forall forum_channel_id puzzle_name content tag_ids puzzle,
         returns (DiscordChatService.create_forum_post
                    forum_channel_id puzzle_name content tag_ids puzzle w))
  /\ (forall post_id tag_id,
         returns (DiscordChatService.add_tag_to_post post_id tag_id w))
  /\ (forall post_id tag_id,
         returns (DiscordChatService.remove_tag_from_post post_id tag_id w))
  /\ (forall post_id new_name,
         returns (DiscordChatService.edit_forum_post_name post_id new_name w))
  /\ (forall guild_id name chan_type parent_id,
         returns (DiscordChatService._create_channel_impl
                    guild_id name chan_type parent_id w))
  /\ (forall guild_id forum_name,
         if truthy guild_id
         then returns (DiscordChatService.create_forum_channel guild_id forum_name w)
         else DiscordChatService.create_forum_channel guild_id forum_name w
              = (Raise (PyException "Missing guild_id"), w))
  /\ (forall guild_id channel_id,
         DiscordChatService.create_channel_url guild_id channel_id
         = if (truthy guild_id && truthy channel_id)%bool
           then Ok (ChannelUrl guild_id channel_id)
           else Raise (PyException "Missing guild_id or channel_id"))
  /\ (forall channel_id msg urls,
         returns (DiscordChatService.announce channel_id msg urls w))
  /\ (forall post_id content urls,
         returns (DiscordChatService.edit_forum_post post_id content urls w))
  /\ (forall channel_id puzzle tag_name,
         returns (DiscordChatService.handle_tag_added channel_id puzzle tag_name w))
  /\ (forall guild_id, returns (DiscordChatService.get_all_roles guild_id w))
  /\ (forall guild_id role_name color,
         returns (DiscordChatService.create_role guild_id role_name color w))
  /\ (forall guild_id,
         if truthy guild_id
         then returns (DiscordChatService._get_channels_for_guild guild_id w)
         else DiscordChatService._get_channels_for_guild guild_id w
              = (Raise (PyException "Missing guild_id"), w)).
Proof.
  assert (Hsend : forall channel_id msg urls w0,
             returns (DiscordChatService.send_message channel_id msg urls w0))
    by (intros; apply swallowed_unit).
  assert (Hannounce : forall channel_id msg urls w0,
             returns (DiscordChatService.announce channel_id msg urls w0)).
  { intros. unfold DiscordChatService.announce.
    destruct (truthy channel_id); [apply Hsend | exists tt; reflexivity]. }
  repeat split; intros.
  - apply Hsend.
  - apply swallowed.
  - destruct tag_id; [apply swallowed_unit | exists tt; reflexivity].
  - destruct tag_id; [apply swallowed_unit | exists tt; reflexivity].
  - apply swallowed_unit.
  - apply swallowed.
  - unfold DiscordChatService.create_forum_channel.
    destruct (truthy guild_id); simpl; [apply swallowed | reflexivity].
  - unfold DiscordChatService.create_channel_url.
    destruct (truthy guild_id), (truthy channel_id); reflexivity.
  - apply Hannounce.
  - apply Hsend.
  - unfold DiscordChatService.handle_tag_added. se_unfold. simpl.
    destruct (DiscordChatService.role_query _ _ _);
      [apply Hannounce | exists tt; reflexivity].
  - apply swallowed.
  - apply swallowed.
  - unfold DiscordChatService._get_channels_for_guild.
    destruct (truthy guild_id); simpl; [apply swallowed | reflexivity].
Qed.

(** A refused request and an answer without an id both end the channel
    creation with [None]. *)
Lemma create_channel_failure_is_none (guild_id : pyval) (name : string) (w : World) :
  (forall rest, script w = Refused :: rest ->
     fst (DiscordChatService.create_forum_channel guild_id name w) = Ok PNone
     \/ truthy guild_id = false)
  /\ (forall rest, script w = Garbled (Some (PDict [])) :: rest ->
        fst (DiscordChatService.create_forum_channel guild_id name w) = Ok PNone
        \/ truthy guild_id = false).
Proof.
  unfold DiscordChatService.create_forum_channel,
    DiscordChatService._create_channel_impl, requests.
  split; intros rest Hs; destruct (truthy guild_id); simpl; auto;
    se_unfold; simpl; rewrite Hs; simpl; auto.
Qed.

(** ** Tags of a post *)

Lemma dict_get_set (k : string) (v : pyval) (d : list (string * pyval)) :
  dict_get k (dict_set k v d) = Some v.
Proof.
  induction d as [| [k' v'] d IH]; simpl.
  - rewrite String.eqb_refl. reflexivity.
  - destruct (String.eqb k k') eqn:E; simpl; rewrite ?E, ?String.eqb_refl; auto.
Qed.

Lemma existsb_is_str_app (s : string) (l : list pyval) :
  existsb (is_str s) (l ++ [PStr s]) = true.
Proof.
  rewrite existsb_app. simpl. rewrite String.eqb_refl.
  rewrite orb_true_r. reflexivity.
Qed.

Lemma remove_first_absent (s : string) (l : list pyval) :
  existsb (is_str s) l = false -> remove_first s l = None.
Proof.
  induction l as [| v l IH]; simpl; [reflexivity |].
  destruct (is_str s v); simpl; [discriminate |].
  intros H. rewrite (IH H). reflexivity.
Qed.

Lemma remove_first_present (s : string) (l : list pyval) :
  existsb (is_str s) l = true -> exists l', remove_first s l = Some l'.
Proof.
  induction l as [| v l IH]; simpl; [discriminate |].
  destruct (is_str s v); simpl; [eauto |].
  intros H. destruct (IH H) as [l' ->]. eauto.
Qed.

Lemma is_str_eq (s : string) (v : pyval) : is_str s v = true -> v = PStr s.
Proof.
  destruct v; simpl; try discriminate.
  intros H. apply String.eqb_eq in H. congruence.
Qed.

Lemma existsb_is_str_In (s : string) (l : list pyval) :
  existsb (is_str s) l = true -> In (PStr s) l.
Proof.
  induction l as [| v l IH]; simpl; [discriminate |].
  destruct (is_str s v) eqn:E; simpl.
  - intros _. left. apply is_str_eq, E.
  - intros H. right. exact (IH H).
Qed.

Lemma remove_first_subset (s : string) (l r : list pyval) (x : pyval) :
  remove_first s l = Some r -> x ∈ r -> x ∈ l.
Proof.
  revert r. induction l as [| y l IHl]; simpl; [discriminate |].
  intros r. destruct (is_str s y).
  - intros [= <-] Hin. right. exact Hin.
  - destruct (remove_first s l) as [r' |]; [| discriminate].
    intros [= <-] Hin. apply elem_of_cons in Hin as [-> | Hin].
    + left.
    + right. exact (IHl _ eq_refl Hin).
Qed.

(** In a set, a tag that was taken out is gone. *)
Lemma remove_first_gone (s : string) (l l' : list pyval) :
  NoDup l -> remove_first s l = Some l' ->
  existsb (is_str s) l' = false /\ NoDup l'.
Proof.
  intros Hnd. revert l'.
  induction Hnd as [| v l Hnotin Hnd IH]; simpl; [discriminate |].
  intros l'. destruct (is_str s v) eqn:E.
  - intros [= <-]. split; [| exact Hnd].
    destruct (existsb (is_str s) l) eqn:Ex; [| reflexivity].
    apply existsb_is_str_In in Ex. apply is_str_eq in E. subst v.
    exfalso. apply Hnotin. apply list_elem_of_In. exact Ex.
  - destruct (remove_first s l) as [r |] eqn:Hr; [| discriminate].
    intros [= <-]. destruct (IH _ eq_refl) as [Hgone Hnd'].
    simpl. rewrite E, Hgone. split; [reflexivity |].
    constructor; [| exact Hnd'].
    intros Hin. apply Hnotin. exact (remove_first_subset s l r v Hr Hin).
Qed.

(** On a reliable world a GET shows the channel's object and changes
    nothing but the log. *)
Lemma requests_get_reliable (channel_id : pyval) (w : World) :
  script w = [] ->
  requests GET (Channel channel_id) PNone w
  = (Ok (Some (PDict (channel_object channel_id (remote w)))),
     with_log (log w ++ [get_request channel_id]) w).
Proof.
  intros Hs. unfold requests, serve, channel_object, get_request. simpl. rewrite Hs.
  destruct channel_id; simpl; try reflexivity.
  destruct (remote w !! s); reflexivity.
Qed.

(** On a reliable world a PATCH overwrites the fields it names. *)
Lemma requests_patch_reliable (channel_id : pyval) (fields : list (string * pyval))
    (w : World) :
  script w = [] ->
  exists answer,
    requests PATCH (Channel channel_id) (PDict fields) w
    = (Ok (Some answer),
       with_remote (on_post (fun obj => dict_update obj fields) channel_id (remote w))
         (with_log (log w ++ [patch_request channel_id fields]) w)).
Proof.
  intros Hs. unfold requests, serve, on_post, patch_request. simpl. rewrite Hs.
  destruct channel_id; simpl; try (eexists; destruct w; reflexivity).
  destruct (remote w !! s); eexists; destruct w; reflexivity.
Qed.

Lemma on_post_same (f : list (string * pyval) -> list (string * pyval))
    (channel_id : pyval) (r : gmap string (list (string * pyval))) :
  f (channel_object channel_id r) = channel_object channel_id r ->
  on_post f channel_id r = r.
Proof.
  unfold on_post, channel_object.
  destruct channel_id; try reflexivity.
  destruct (r !! s) eqn:E; [| reflexivity].
  intros ->. apply insert_id. exact E.
Qed.

Lemma on_post_ext (f g : list (string * pyval) -> list (string * pyval))
    (channel_id : pyval) (r : gmap string (list (string * pyval))) :
  f (channel_object channel_id r) = g (channel_object channel_id r) ->
  on_post f channel_id r = on_post g channel_id r.
Proof.
  unfold on_post, channel_object.
  destruct channel_id; try reflexivity.
  destruct (r !! s) eqn:E; [| reflexivity].
  intros ->. reflexivity.
Qed.

Ltac tags_unchanged f Hget Hs :=
  split; [symmetry; apply on_post_same; unfold f; rewrite Hget; try reflexivity
         | split; [exact Hs | reflexivity]].

(** On a reliable world [add_tag_to_post] adds the tag to the post's set,
    with one GET and, when the tag was missing, one PATCH. *)
Lemma add_tag_to_post_remote (post_id : pyval) (t : Z) (w : World) :
  script w = [] ->
  let w' := snd (DiscordChatService.add_tag_to_post post_id (Some t) w) in
  remote w' = on_post (add_tag (py_str_int t)) post_id (remote w)
  /\ script w' = []
  /\ log w'
     = log w ++ get_request post_id
         :: match dict_get "applied_tags" (channel_object post_id (remote w)) with
            | None =>
                [patch_request post_id [("applied_tags", PList [PStr (py_str_int t)])]]
            | Some (PList l) =>
                if existsb (is_str (py_str_int t)) l then []
                else [patch_request post_id
                        [("applied_tags", PList (l ++ [PStr (py_str_int t)]))]]
            | Some _ => []
            end.
Proof.
  intros Hs. unfold DiscordChatService.add_tag_to_post.
  se_unfold. rewrite (requests_get_reliable _ _ Hs). simpl.
  unfold dict_has.
  destruct (dict_get "applied_tags" (channel_object post_id (remote w)))
    as [v |] eqn:Hget; simpl.
  - destruct v as [ | b | n | s | l | d]; simpl;
      try (tags_unchanged add_tag Hget Hs).
    + destruct (is_substring (py_str_int t) s); simpl; tags_unchanged add_tag Hget Hs.
    + destruct (existsb (is_str (py_str_int t)) l) eqn:Hin; simpl.
      * tags_unchanged add_tag Hget Hs. rewrite Hin. reflexivity.
      * destruct (requests_patch_reliable post_id
                    [("applied_tags", PList (l ++ [PStr (py_str_int t)]))]
                    (with_log (log w ++ [get_request post_id]) w) Hs) as [answer ->].
        simpl. split; [| split; [exact Hs | rewrite <- app_assoc; reflexivity]].
        apply on_post_ext. unfold add_tag. rewrite Hget, Hin. reflexivity.
    + destruct (dict_has (py_str_int t) d); simpl; tags_unchanged add_tag Hget Hs.
  - destruct (requests_patch_reliable post_id
                [("applied_tags", PList [PStr (py_str_int t)])]
                (with_log (log w ++ [get_request post_id]) w) Hs) as [answer ->].
    simpl. split; [| split; [exact Hs | rewrite <- app_assoc; reflexivity]].
    apply on_post_ext. unfold add_tag. rewrite Hget. reflexivity.
Qed.

(** On a reliable world [remove_tag_from_post] takes the tag out of the
    post's set, with one GET and, when the tag was there, one PATCH. *)
Lemma remove_tag_from_post_remote (post_id : pyval) (t : Z) (w : World) :
  script w = [] ->
  let w' := snd (DiscordChatService.remove_tag_from_post post_id (Some t) w) in
  remote w' = on_post (remove_tag (py_str_int t)) post_id (remote w)
  /\ script w' = []
  /\ log w'
     = log w ++ get_request post_id
         :: match dict_get "applied_tags" (channel_object post_id (remote w)) with
            | Some (PList l) =>
                match remove_first (py_str_int t) l with
                | Some l' => [patch_request post_id [("applied_tags", PList l')]]
                | None => []
                end
            | _ => []
            end.
Proof.
  intros Hs. unfold DiscordChatService.remove_tag_from_post.
  se_unfold. rewrite (requests_get_reliable _ _ Hs). simpl.
  unfold dict_has.
  destruct (dict_get "applied_tags" (channel_object post_id (remote w)))
    as [v |] eqn:Hget; simpl.
  - destruct v as [ | b | n | s | l | d]; simpl;
      try (tags_unchanged remove_tag Hget Hs).
    + destruct (is_substring (py_str_int t) s); simpl; tags_unchanged remove_tag Hget Hs.
    + destruct (existsb (is_str (py_str_int t)) l) eqn:Hin; simpl.
      * destruct (remove_first_present _ _ Hin) as [l' Hl']. rewrite Hl'. simpl.
        destruct (requests_patch_reliable post_id [("applied_tags", PList l')]
                    (with_log (log w ++ [get_request post_id]) w) Hs) as [answer ->].
        simpl. split; [| split; [exact Hs | rewrite <- app_assoc; reflexivity]].
        apply on_post_ext. unfold remove_tag. rewrite Hget, Hl'. reflexivity.
      * rewrite (remove_first_absent _ _ Hin).
        tags_unchanged remove_tag Hget Hs.
        rewrite (remove_first_absent _ _ Hin). reflexivity.
    + destruct (dict_has (py_str_int t) d); simpl; tags_unchanged remove_tag Hget Hs.
  - tags_unchanged remove_tag Hget Hs.
Qed.

Lemma channel_object_on_post (f : list (string * pyval) -> list (string * pyval))
    (channel_id : pyval) (r : gmap string (list (string * pyval))) :
  on_post f channel_id r = r
  \/ channel_object channel_id (on_post f channel_id r) = f (channel_object channel_id r).
Proof.
  unfold on_post, channel_object.
  destruct channel_id; auto.
  destruct (r !! s) eqn:E; auto.
  right. rewrite lookup_insert_eq. reflexivity.
Qed.

Lemma on_post_idempotent (f : list (string * pyval) -> list (string * pyval))
    (channel_id : pyval) (r : gmap string (list (string * pyval))) :
  f (f (channel_object channel_id r)) = f (channel_object channel_id r) ->
  on_post f channel_id (on_post f channel_id r) = on_post f channel_id r.
Proof.
  unfold on_post, channel_object.
  destruct channel_id; auto.
  destruct (r !! s) eqn:E; rewrite ?E; auto.
  rewrite lookup_insert_eq. intros ->. apply insert_insert_eq.
Qed.

Lemma add_tag_idempotent (tag : string) (obj : list (string * pyval)) :
  add_tag tag (add_tag tag obj) = add_tag tag obj.
Proof.
  unfold add_tag at 2. unfold add_tag at 2.
  destruct (dict_get "applied_tags" obj) as [v |] eqn:Hget.
  - destruct v; try (unfold add_tag; rewrite Hget; reflexivity).
    destruct (existsb (is_str tag) l) eqn:Hin.
    + unfold add_tag. rewrite Hget, Hin. reflexivity.
    + unfold add_tag. rewrite dict_get_set, existsb_is_str_app. reflexivity.
  - unfold add_tag. rewrite dict_get_set. simpl. rewrite String.eqb_refl. reflexivity.
Qed.

Lemma remove_tag_idempotent (tag : string) (obj : list (string * pyval)) :
  (forall l, dict_get "applied_tags" obj = Some (PList l) -> NoDup l) ->
  remove_tag tag (remove_tag tag obj) = remove_tag tag obj.
Proof.
  intros Hset. unfold remove_tag at 2. unfold remove_tag at 2.
  destruct (dict_get "applied_tags" obj) as [v |] eqn:Hget.
  - destruct v; try (unfold remove_tag; rewrite Hget; reflexivity).
    destruct (remove_first tag l) as [l' |] eqn:Hl'.
    + destruct (remove_first_gone tag l l' (Hset l eq_refl) Hl') as [Hgone _].
      unfold remove_tag. rewrite dict_get_set.
      rewrite (remove_first_absent _ _ Hgone). reflexivity.
    + unfold remove_tag. rewrite Hget, Hl'. reflexivity.
  - unfold remove_tag. rewrite Hget. reflexivity.
Qed.

Lemma channel_object_cases (channel_id : pyval)
    (r : gmap string (list (string * pyval))) :
  (exists c, channel_id = PStr c /\ r !! c = Some (channel_object channel_id r))
  \/ dict_get "applied_tags" (channel_object channel_id r) = None.
Proof.
  unfold channel_object. destruct channel_id; auto.
  destruct (r !! s) eqn:E; eauto.
Qed.

(** C10. Without a tag id, [add_tag_to_post] and [remove_tag_from_post]
    return at once: no request, nothing changed. With one, on a world that
    answers, the post's tags are read with one GET; [add_tag_to_post] then
    sends a PATCH only when the tag is not among them, [remove_tag_from_post]
    only when it is. Adding a tag twice leaves the service's store as adding
    it once does, and so does removing twice when the tags of a post are a
    set. *)
Theorem tag_edits_idempotent (post_id : pyval) (t : Z) (w : World) :
  DiscordChatService.add_tag_to_post post_id None w = (Ok tt, w)
  /\ DiscordChatService.remove_tag_from_post post_id None w = (Ok tt, w)
  /\ (reliable w ->
      let tag := py_str_int t in
      let add := fun w0 => snd (DiscordChatService.add_tag_to_post post_id (Some t) w0) in
      let remove :=
        fun w0 => snd (DiscordChatService.remove_tag_from_post post_id (Some t) w0) in
      (forall l,
          dict_get "applied_tags" (channel_object post_id (remote w)) = Some (PList l) ->
          log (add w)
          = log w ++ get_request post_id
              :: (if existsb (is_str tag) l then []
                  else [patch_request post_id
                          [("applied_tags", PList (l ++ [PStr tag]))]])
          /\ log (remove w)
             = log w ++ get_request post_id
                 :: match remove_first tag l with
                    | Some l' => [patch_request post_id [("applied_tags", PList l')]]
                    | None => []
                    end
          /\ (remove_first tag l = None <-> existsb (is_str tag) l = false))
      /\ remote (add (add w)) = remote (add w)
      /\ (tags_are_sets (remote w) -> remote (remove (remove w)) = remote (remove w))).
Proof.
  split; [reflexivity |]. split; [reflexivity |].
  unfold reliable. intros Hs. cbv zeta.
  destruct (add_tag_to_post_remote post_id t w Hs) as (Hadd & Hsa & Hla).
  destruct (remove_tag_from_post_remote post_id t w Hs) as (Hrem & Hsr & Hlr).
  split; [| split].
  - intros l Hl. rewrite Hl in Hla, Hlr. split; [exact Hla |]. split; [exact Hlr |].
    split.
    + intros Hn. destruct (existsb (is_str (py_str_int t)) l) eqn:E; [| reflexivity].
      destruct (remove_first_present _ _ E) as [l' Hl']. congruence.
    + apply remove_first_absent.
  - destruct (add_tag_to_post_remote post_id t _ Hsa) as (Hadd2 & _).
    rewrite Hadd2, Hadd. apply on_post_idempotent, add_tag_idempotent.
  - intros Hset.
    destruct (remove_tag_from_post_remote post_id t _ Hsr) as (Hrem2 & _).
    rewrite Hrem2, Hrem. apply on_post_idempotent, remove_tag_idempotent.
    intros l Hl.
    destruct (channel_object_cases post_id (remote w)) as [(c & -> & Hc) | Hnone].
    + exact (Hset c _ l Hc Hl).
    + congruence.
Qed.

Lemma tag_edits_idempotent_witness :
  let w := world_with_post [PStr "7"] in
  let add := fun w0 => snd (DiscordChatService.add_tag_to_post (PStr "55") (Some 9) w0) in
  log (add w)
  = [get_request (PStr "55");
     patch_request (PStr "55") [("applied_tags", PList [PStr "7"; PStr "9"])]]
  /\ remote (add (add w)) = remote (add w)
  /\ remote (add w) = remote (world_with_post [PStr "7"; PStr "9"]).
Proof.
  cbv zeta.
  pose proof (proj2 (proj2 (tag_edits_idempotent (PStr "55") 9 (world_with_post [PStr "7"])))
                eq_refl) as (Hlog & Hadd & _).
  split; [exact (proj1 (Hlog [PStr "7"] eq_refl)) |].
  split; [exact Hadd |].
  vm_compute. reflexivity.
Defined.

(** ** Solved and unsolved *)

Lemma spec_edit_post_tags_overwrites (post_id : pyval) (tags : list Z) (w : World) :
  script w = [] ->
  known_post post_id w ->
  let out := spec_edit_post_tags post_id tags w in
  fst out = Ok tt
  /\ applied_tags_of post_id (snd out) = Some (tag_set tags)
  /\ script (snd out) = []
  /\ known_post post_id (snd out)
  /\ log (snd out)
     = log w ++ [patch_request post_id [("applied_tags", tag_set tags)]].
Proof.
  intros Hs (c & obj & -> & Hc). unfold spec_edit_post_tags. se_unfold.
  destruct (requests_patch_reliable (PStr c)
              [("applied_tags",
                PList (map (fun tag_id => PStr (py_str_int tag_id)) tags))] w Hs)
    as [answer ->].
  simpl. unfold applied_tags_of, known_post, channel_object, on_post. simpl.
  rewrite Hc. rewrite !lookup_insert_eq. simpl.
  rewrite dict_get_set.
  repeat split; auto.
  eexists c, _. split; [reflexivity | apply lookup_insert_eq].
Qed.

(** C6. On a room with a post id, [handle_puzzle_solved] asks the service,
    once, to set the post's tags to the list holding SOLVED_TAG alone, and
    [handle_puzzle_unsolved] to the list holding WORKING_TAG alone. With
    [edit_post_tags] as the contract describes it, on a world that answers
    and a post the service knows, the post's tag set is then exactly that
    list, whatever it held before; after solved and then unsolved it is the
    working tag alone. *)
Theorem solved_then_unsolved_overwrites (ops : ForumOps) (st : State) :
  truthy (post_id (self st)) = true ->
  reliable (world st) ->
  known_post (post_id (self st)) (world st) ->
  let service := discord_service (with_spec_edit_post_tags ops) in
  let solved := fun s => snd (ChatRoom.handle_puzzle_solved service s) in
  let unsolved := fun s => snd (ChatRoom.handle_puzzle_unsolved service s) in
  calls (solved st) = calls st ++ [edit_post_tags_call (post_id (self st)) [SOLVED_TAG]]
  /\ calls (unsolved st)
     = calls st ++ [edit_post_tags_call (post_id (self st)) [WORKING_TAG]]
  /\ applied_tags_of (post_id (self st)) (world (solved st))
     = Some (PList [PStr (py_str_int SOLVED_TAG)])
  /\ applied_tags_of (post_id (self st)) (world (unsolved st))
     = Some (PList [PStr (py_str_int WORKING_TAG)])
  /\ applied_tags_of (post_id (self st)) (world (unsolved (solved st)))
     = Some (PList [PStr (py_str_int WORKING_TAG)])
  /\ log (world (unsolved (solved st)))
     = log (world st)
       ++ [patch_request (post_id (self st)) [("applied_tags", tag_set [SOLVED_TAG])];
           patch_request (post_id (self st)) [("applied_tags", tag_set [WORKING_TAG])]].
Proof.
  unfold reliable. intros Ht Hs Hk. cbv zeta.
  unfold ChatRoom.handle_puzzle_solved, ChatRoom.handle_puzzle_unsolved.
  se_unfold. simpl. rewrite Ht. simpl.
  destruct (spec_edit_post_tags_overwrites (post_id (self st)) [SOLVED_TAG]
              (world st) Hs Hk) as (_ & Hts & Hss & Hks & Hls).
  destruct (spec_edit_post_tags_overwrites (post_id (self st)) [WORKING_TAG]
              (world st) Hs Hk) as (_ & Htw & _).
  destruct (spec_edit_post_tags (post_id (self st)) [SOLVED_TAG] (world st))
    as [r1 w1]; simpl in *.
  destruct (spec_edit_post_tags_overwrites (post_id (self st)) [WORKING_TAG]
              w1 Hss Hks) as (_ & Htsw & _ & _ & Hlsw).
  destruct (spec_edit_post_tags (post_id (self st)) [WORKING_TAG] (world st))
    as [r2 w2]; simpl in *.
  rewrite Ht. simpl.
  destruct (spec_edit_post_tags (post_id (self st)) [WORKING_TAG] w1)
    as [r3 w3]; simpl in *.
  repeat split; auto.
  rewrite Hlsw, Hls, <- app_assoc. reflexivity.
Qed.

Lemma solved_then_unsolved_overwrites_witness :
  let st :=
    Simulated.start (Simulated.feeder_room (PStr "55") [])
      (world_with_post [PStr (py_str_int NEW_TAG); PStr (py_str_int STUCK_TAG)]) in
  let service :=
    discord_service (with_spec_edit_post_tags (Simulated.ops (Ok PNone) (Ok PNone))) in
  applied_tags_of (PStr "55")
    (world (snd (ChatRoom.handle_puzzle_unsolved service
                   (snd (ChatRoom.handle_puzzle_solved service st)))))
  = Some (PList [PStr "1320199606243561513"]).
Proof.
  cbv zeta.
  refine (proj1 (proj2 (proj2 (proj2 (proj2
            (solved_then_unsolved_overwrites (Simulated.ops (Ok PNone) (Ok PNone))
               (Simulated.start (Simulated.feeder_room (PStr "55") [])
                  (world_with_post
                     [PStr (py_str_int NEW_TAG); PStr (py_str_int STUCK_TAG)]))
               eq_refl eq_refl _)))))).
  exists "55", [("id", PStr "55"); ("name", PStr "Feeder");
                ("applied_tags",
                 PList [PStr (py_str_int NEW_TAG); PStr (py_str_int STUCK_TAG)])].
  split; reflexivity.
Defined.

(** ** The tags of a post stay a set *)

Lemma In_existsb_is_str (s : string) (l : list pyval) :
  PStr s ∈ l -> existsb (is_str s) l = true.
Proof.
  intros Hin. apply list_elem_of_In in Hin.
  induction l as [| v l IH]; simpl in *; [destruct Hin |].
  destruct Hin as [-> | Hin].
  - simpl. rewrite String.eqb_refl. reflexivity.
  - rewrite (IH Hin). apply orb_true_r.
Qed.

Lemma add_tag_keeps_sets (tag : string) (post_id : pyval)
    (r : gmap string (list (string * pyval))) :
  tags_are_sets r -> tags_are_sets (on_post (add_tag tag) post_id r).
Proof.
  unfold tags_are_sets, on_post. intros Hset.
  destruct post_id as [ | | | s | | ]; try exact Hset.
  destruct (r !! s) as [obj0 |] eqn:E; [| exact Hset].
  intros c obj l Hlook Hget.
  destruct (decide (s = c)) as [-> | Hne].
  - rewrite lookup_insert_eq in Hlook. injection Hlook as <-.
    unfold add_tag in Hget.
    destruct (dict_get "applied_tags" obj0) as [v |] eqn:Hg0.
    + destruct v as [ | | | | l0 | ]; try (rewrite Hg0 in Hget; discriminate).
      destruct (existsb (is_str tag) l0) eqn:Hin.
      * rewrite Hg0 in Hget. injection Hget as <-. exact (Hset c _ _ E Hg0).
      * rewrite dict_get_set in Hget. injection Hget as <-.
        apply NoDup_app. split; [exact (Hset c _ _ E Hg0) |].
        split; [| apply NoDup_singleton].
        intros x Hx Hx'. apply list_elem_of_singleton in Hx'. subst x.
        apply In_existsb_is_str in Hx. congruence.
    + rewrite dict_get_set in Hget. injection Hget as <-. apply NoDup_singleton.
  - rewrite lookup_insert_ne in Hlook by exact Hne. exact (Hset c _ _ Hlook Hget).
Qed.

Lemma remove_tag_keeps_sets (tag : string) (post_id : pyval)
    (r : gmap string (list (string * pyval))) :
  tags_are_sets r -> tags_are_sets (on_post (remove_tag tag) post_id r).
Proof.
  unfold tags_are_sets, on_post. intros Hset.
  destruct post_id as [ | | | s | | ]; try exact Hset.
  destruct (r !! s) as [obj0 |] eqn:E; [| exact Hset].
  intros c obj l Hlook Hget.
  destruct (decide (s = c)) as [-> | Hne].
  - rewrite lookup_insert_eq in Hlook. injection Hlook as <-.
    unfold remove_tag in Hget.
    destruct (dict_get "applied_tags" obj0) as [v |] eqn:Hg0;
      [| rewrite Hg0 in Hget; discriminate].
    destruct v as [ | | | | l0 | ]; try (rewrite Hg0 in Hget; discriminate).
    destruct (remove_first tag l0) as [l' |] eqn:Hl'.
    + rewrite dict_get_set in Hget. injection Hget as <-.
      exact (proj2 (remove_first_gone tag l0 l' (Hset c _ _ E Hg0) Hl')).
    + rewrite Hg0 in Hget. injection Hget as <-. exact (Hset c _ _ E Hg0).
  - rewrite lookup_insert_ne in Hlook by exact Hne. exact (Hset c _ _ Hlook Hget).
Qed.

(** ** The helper that looks a forum channel up before creating it *)

(** [_get_or_create_forum_channel] is not protected the way the operations
    above are: when the listing of the guild's channels fails,
    [_get_channels_for_guild] swallows the failure and returns [None], and the
    comprehension over that [None] raises a TypeError that reaches the
    caller. *)
Theorem get_or_create_forum_channel_propagates
    (guild_id : pyval) (forum_name : string) (w : World) (rest : list fault) :
  truthy guild_id = true ->
  script w = Refused :: rest \/ script w = Garbled None :: rest ->
  fst (DiscordChatService._get_or_create_forum_channel guild_id forum_name w)
  = Raise TypeError.
Proof.
  intros Hg Hs.
  unfold DiscordChatService._get_or_create_forum_channel,
    DiscordChatService._get_channels_for_guild, requests.
  rewrite Hg. se_unfold. simpl.
  destruct Hs as [-> | ->]; reflexivity.
Qed.

Lemma get_or_create_forum_channel_propagates_witness :
  fst (DiscordChatService._get_or_create_forum_channel (PStr "guild") "Meta"
         (with_script [Refused] Simulated.empty_world))
  = Raise TypeError.
Proof.
  exact (get_or_create_forum_channel_propagates (PStr "guild") "Meta"
           (with_script [Refused] Simulated.empty_world) [] eq_refl
           (or_introl eq_refl)).
Defined.

(** With an answering service the helper finds the forum channel of that name
    or creates it. *)
Lemma get_or_create_forum_channel_sample :
  let w1 := snd (DiscordChatService.create_forum_channel (PStr "guild") "Meta"
                   Simulated.empty_world) in
  fst (DiscordChatService._get_or_create_forum_channel (PStr "guild") "Meta" w1)
  = Ok (PStr "1")
  /\ fst (DiscordChatService._get_or_create_forum_channel (PStr "guild") "Other" w1)
     = Ok (PStr "2").
Proof. cbv zeta. split; vm_compute; reflexivity. Qed.

(** ** A meta room whose forum channel could not be created *)

Lemma create_channels_meta_without_answer_witness :
  let st := Simulated.start (Simulated.meta_room PNone)
              (with_script [Refused] Simulated.empty_world) in
  let st' := snd (ChatRoom.create_channels (discord_service (client_ops (Ok PNone))) st) in
  calls st' = [create_forum_call (PStr "guild") "Meta"]
  /\ forum_channel_id (self st') = PNone.
Proof.
  exact (create_channels_meta_without_answer
           (discord_service (client_ops (Ok PNone)))
           (Simulated.start (Simulated.meta_room PNone)
              (with_script [Refused] Simulated.empty_world))
           (snd (DiscordChatService.create_forum_channel (PStr "guild") "Meta"
                   (with_script [Refused] Simulated.empty_world)))
           eq_refl eq_refl eq_refl).
Defined.

(** ** Tag edits keep the tags of a post a set *)

Theorem tag_edits_keep_sets (post_id : pyval) (t : Z) (w : World) :
  reliable w ->
  tags_are_sets (remote w) ->
  tags_are_sets (remote (snd (DiscordChatService.add_tag_to_post post_id (Some t) w)))
  /\ tags_are_sets
       (remote (snd (DiscordChatService.remove_tag_from_post post_id (Some t) w))).
Proof.
  unfold reliable. intros Hs Hset.
  destruct (add_tag_to_post_remote post_id t w Hs) as (-> & _).
  destruct (remove_tag_from_post_remote post_id t w Hs) as (-> & _).
  split; [apply add_tag_keeps_sets | apply remove_tag_keeps_sets]; exact Hset.
Qed.

Lemma world_with_post_is_set : tags_are_sets (remote (world_with_post [PStr "7"])).
Proof.
  intros c obj l Hc Hl. unfold world_with_post in Hc. simpl in Hc.
  apply lookup_singleton_Some in Hc as [<- <-].
  simpl in Hl. injection Hl as <-. apply NoDup_singleton.
Qed.

Lemma tag_edits_keep_sets_witness :
  tags_are_sets
    (remote (snd (DiscordChatService.add_tag_to_post (PStr "55") (Some 9)
                    (world_with_post [PStr "7"])))).
Proof.
  exact (proj1 (tag_edits_keep_sets (PStr "55") 9 (world_with_post [PStr "7"])
                  eq_refl world_with_post_is_set)).
Defined.

(** * Further properties of the client *)

(** ** Link embeds *)

(** [_make_link_embeds] gives [None] exactly for an empty map; otherwise one
    rich embed of colour 12852794 whose fields are the links in the order of
    the map, one field per link, each inline and showing the link under its
    display text. *)
Theorem make_link_embeds_shape (embedded_urls : urlmap) :
  (DiscordChatService._make_link_embeds embedded_urls = PNone <-> embedded_urls = [])
  /\ (embedded_urls <> [] ->
      DiscordChatService._make_link_embeds embedded_urls
      = PList [PDict [("fields", PList (map link_field embedded_urls));
                      ("color", PInt 12852794); ("type", PStr "rich")]]
      /\ length (map link_field embedded_urls) = length embedded_urls
      /\ truthy (DiscordChatService._make_link_embeds embedded_urls) = true).
Proof.
  assert (Hmap : forall l : urlmap,
             map (fun '(text, url) =>
                    PDict [("name", PStr text);
                           ("value", PStr ("[link](" +:+ url +:+ ")"));
                           ("inline", PBool true)]) l
             = map link_field l)
    by (intros l; apply map_ext; intros [a b]; reflexivity).
  unfold DiscordChatService._make_link_embeds.
  destruct embedded_urls as [| p rest].
  - split; [split; reflexivity | intros H; contradiction].
  - rewrite Hmap, length_map. simpl.
    split; [split; intros H; discriminate |].
    intros _. repeat split.
Qed.

(** ** How many requests an operation sends *)

Ltac log_step :=
  match goal with
  | |- context [requests ?v ?e ?b ?w] =>
      let H := fresh "Hlog" in
      pose proof (requests_log v e b w) as H;
      destruct (requests v e b w) as [[? | ?] ?]; simpl in H |- *
  | |- context [match ?x with _ => _ end] =>
      lazymatch type of x with
      | (_ * _)%type => fail
      | _ =>
          lazymatch x with
          | context [match _ with _ => _ end] => fail
          | _ => destruct x; simpl
          end
      end
  end.

(** Whatever the transport does, each of [send_message],
    [edit_forum_post_name], [_create_channel_impl] and [create_forum_post]
    sends exactly one request, with no retry; [announce] sends the one of
    [send_message] or, without a channel id, none; [create_forum_channel]
    without a guild id sends none. *)
Theorem one_request_per_operation (w : World) :
  (forall channel_id msg urls,
      log (snd (DiscordChatService.send_message channel_id msg urls w))
      = log w ++ [message_request channel_id msg urls])
  /\ (forall post_id new_name,
         log (snd (DiscordChatService.edit_forum_post_name post_id new_name w))
         = log w ++ [patch_request post_id [("name", PStr new_name)]])
  /\ (forall guild_id name chan_type parent_id,
         log (snd (DiscordChatService._create_channel_impl guild_id name chan_type
                     parent_id w))
         = log w ++ [post_channel_request guild_id name chan_type parent_id])
  /\ (forall forum_channel_id puzzle_name content tag_ids puzzle,
         log (snd (DiscordChatService.create_forum_post forum_channel_id puzzle_name
                     content tag_ids puzzle w))
         = log w ++ [post_thread_request forum_channel_id puzzle_name content
                       tag_ids puzzle])
  /\ (forall channel_id msg urls,
         log (snd (DiscordChatService.announce channel_id msg urls w))
         = log w ++ (if truthy channel_id then [message_request channel_id msg urls]
                     else []))
  /\ (forall guild_id forum_name,
         log (snd (DiscordChatService.create_forum_channel guild_id forum_name w))
         = log w ++ (if truthy guild_id
                     then [post_channel_request guild_id forum_name
                             CHANNEL_FORUM_TYPE PNone]
                     else [])).
Proof.
  assert (Himpl : forall guild_id name chan_type parent_id,
             log (snd (DiscordChatService._create_channel_impl guild_id name chan_type
                         parent_id w))
             = log w ++ [post_channel_request guild_id name chan_type parent_id]).
  { intros. unfold DiscordChatService._create_channel_impl, post_channel_request,
      json_loads, py_in, py_getitem.
    se_unfold. repeat log_step; exact Hlog. }
  repeat split; intros.
  - apply discord_send_message_log.
  - unfold DiscordChatService.edit_forum_post_name. se_unfold.
    repeat log_step; exact Hlog.
  - apply Himpl.
  - unfold DiscordChatService.create_forum_post, post_thread_request,
      json_loads, py_in, py_getitem, DiscordChatService.create_channel_url.
    se_unfold. repeat log_step; exact Hlog.
  - unfold DiscordChatService.announce. destruct (truthy channel_id).
    + apply discord_send_message_log.
    + simpl. rewrite app_nil_r. reflexivity.
  - unfold DiscordChatService.create_forum_channel. destruct (truthy guild_id); simpl.
    + apply Himpl.
    + rewrite app_nil_r. reflexivity.
Qed.

(** ** Requests and writes of the tag edits *)

(** Whatever the transport does, [add_tag_to_post] and [remove_tag_from_post]
    send a GET on the post first and after it at most one request, a PATCH of
    the post's applied tags; the list [add_tag_to_post] sends holds the
    tag. *)
Theorem tag_edit_requests (post_id : pyval) (t : Z) (w : World) :
  (log (snd (DiscordChatService.add_tag_to_post post_id (Some t) w))
   = log w ++ [get_request post_id]
   \/ exists tags,
       log (snd (DiscordChatService.add_tag_to_post post_id (Some t) w))
       = log w ++ [get_request post_id;
                   patch_request post_id [("applied_tags", PList tags)]]
       /\ existsb (is_str (py_str_int t)) tags = true)
  /\ (log (snd (DiscordChatService.remove_tag_from_post post_id (Some t) w))
      = log w ++ [get_request post_id]
      \/ exists tags,
          log (snd (DiscordChatService.remove_tag_from_post post_id (Some t) w))
          = log w ++ [get_request post_id;
                      patch_request post_id [("applied_tags", PList tags)]]).
Proof.
  split.
  - unfold DiscordChatService.add_tag_to_post, json_loads, py_in, py_getitem,
      py_append, get_request, patch_request.
    se_unfold.
    repeat log_step;
      first [ left; exact Hlog
            | right; eexists; split;
              [ rewrite Hlog0, Hlog, <- app_assoc; reflexivity
              | first [ apply existsb_is_str_app
                      | simpl; rewrite String.eqb_refl; reflexivity ] ] ].
  - unfold DiscordChatService.remove_tag_from_post, json_loads, py_in, py_getitem,
      py_remove, get_request, patch_request.
    se_unfold.
    repeat log_step;
      first [ left; exact Hlog
            | right; eexists; rewrite Hlog0, Hlog, <- app_assoc; reflexivity ].
Qed.

(** When the read of the post fails (the request is refused, its answer is
    lost, or what comes back is not JSON) the tag edits write nothing: no
    PATCH is sent and the service's store is as before; they return, having
    printed one line. *)
Theorem failed_read_never_writes
    (post_id : pyval) (t : Z) (w : World) (f : fault) (rest : list fault) :
  script w = f :: rest ->
  f = Refused \/ f = Lost \/ f = Garbled None ->
  let added := DiscordChatService.add_tag_to_post post_id (Some t) w in
  let removed := DiscordChatService.remove_tag_from_post post_id (Some t) w in
  (fst added = Ok tt
   /\ remote (snd added) = remote w
   /\ log (snd added) = log w ++ [get_request post_id]
   /\ script (snd added) = rest
   /\ length (stdout (snd added)) = S (length (stdout w)))
  /\ (fst removed = Ok tt
      /\ remote (snd removed) = remote w
      /\ log (snd removed) = log w ++ [get_request post_id]
      /\ script (snd removed) = rest
      /\ length (stdout (snd removed)) = S (length (stdout w))).
Proof.
  intros Hs Hf. cbv zeta.
  unfold DiscordChatService.add_tag_to_post, DiscordChatService.remove_tag_from_post,
    requests, serve, get_request.
  se_unfold. simpl. rewrite Hs.
  destruct Hf as [-> | [-> | ->]]; simpl;
    try (repeat split; rewrite ?length_app; simpl; try reflexivity; lia).
  destruct post_id as [ | | | c | | ]; simpl;
    try destruct (remote w !! c); simpl;
    repeat split; rewrite ?length_app; simpl; try reflexivity; lia.
Qed.

Lemma failed_read_never_writes_witness :
  let w := with_script [Refused] (world_with_post [PStr "7"]) in
  let added := DiscordChatService.add_tag_to_post (PStr "55") (Some 9) w in
  fst added = Ok tt
  /\ remote (snd added) = remote w
  /\ log (snd added) = [get_request (PStr "55")].
Proof.
  cbv zeta.
  destruct (failed_read_never_writes (PStr "55") 9
              (with_script [Refused] (world_with_post [PStr "7"])) Refused []
              eq_refl (or_introl eq_refl)) as [(H1 & H2 & H3 & _) _].
  auto.
Defined.

Lemma requests_garbled (v : method) (e : endpoint) (body : pyval) (w : World)
    (content : option pyval) (rest : list fault) :
  script w = Garbled content :: rest ->
  requests v e body w
  = (Ok content,
     with_script rest
       (with_log (log w ++ [{| verb := v; target := e; payload := body |}]) w)).
Proof. intros Hs. unfold requests. simpl. rewrite Hs. reflexivity. Qed.

(** When the read of a known post is answered with a JSON object that has no
    "applied_tags" key (an error object, say) and the write that follows is
    delivered, [add_tag_to_post] takes the post for untagged: the tags the
    post had are replaced by the one tag. *)
Theorem add_tag_after_error_reply_overwrites
    (c : string) (obj d : list (string * pyval)) (t : Z) (w : World) :
  remote w !! c = Some obj ->
  script w = [Garbled (Some (PDict d))] ->
  dict_get "applied_tags" d = None ->
  let out := DiscordChatService.add_tag_to_post (PStr c) (Some t) w in
  fst out = Ok tt
  /\ applied_tags_of (PStr c) (snd out) = Some (PList [PStr (py_str_int t)])
  /\ log (snd out)
     = log w ++ [get_request (PStr c);
                 patch_request (PStr c)
                   [("applied_tags", PList [PStr (py_str_int t)])]].
Proof.
  intros Hc Hs Hd. cbv zeta.
  unfold DiscordChatService.add_tag_to_post.
  se_unfold. rewrite (requests_garbled _ _ _ _ _ _ Hs). simpl.
  unfold dict_has. rewrite Hd. simpl.
  destruct (requests_patch_reliable (PStr c)
              [("applied_tags", PList [PStr (py_str_int t)])]
              (with_script []
                 (with_log (log w ++ [get_request (PStr c)]) w)) eq_refl)
    as [answer Hp].
  unfold get_request in *. simpl in Hp. rewrite Hp. simpl.
  unfold applied_tags_of, channel_object, on_post. simpl.
  rewrite Hc, lookup_insert_eq. simpl. rewrite dict_get_set.
  rewrite <- app_assoc. repeat split.
Qed.

Lemma add_tag_after_error_reply_overwrites_witness :
  let w :=
    with_script [Garbled (Some (PDict [("message", PStr "You are being rate limited.")]))]
      (world_with_post [PStr "7"; PStr "8"]) in
  applied_tags_of (PStr "55") w = Some (PList [PStr "7"; PStr "8"])
  /\ applied_tags_of (PStr "55")
       (snd (DiscordChatService.add_tag_to_post (PStr "55") (Some 9) w))
     = Some (PList [PStr "9"]).
Proof.
  cbv zeta. split; [reflexivity |].
  exact (proj1 (proj2 (add_tag_after_error_reply_overwrites "55" _
                         [("message", PStr "You are being rate limited.")] 9
                         (with_script
                            [Garbled (Some (PDict [("message",
                                                    PStr "You are being rate limited.")]))]
                            (world_with_post [PStr "7"; PStr "8"]))
                         eq_refl eq_refl eq_refl))).
Defined.

(** ** What the tag edits leave behind *)

Lemma dict_get_set_ne (k k' : string) (v : pyval) (d : list (string * pyval)) :
  k <> k' -> dict_get k (dict_set k' v d) = dict_get k d.
Proof.
  intros Hne. induction d as [| [k0 v0] d IH]; simpl.
  - destruct (String.eqb_spec k k'); [contradiction | reflexivity].
  - destruct (String.eqb_spec k' k0) as [-> | Hk0]; simpl.
    + destruct (String.eqb_spec k k0); [contradiction | reflexivity].
    + destruct (String.eqb k k0); [reflexivity | exact IH].
Qed.

Lemma dict_set_set (k : string) (v v' : pyval) (d : list (string * pyval)) :
  dict_set k v (dict_set k v' d) = dict_set k v d.
Proof.
  induction d as [| [k0 v0] d IH]; simpl.
  - rewrite String.eqb_refl. reflexivity.
  - destruct (String.eqb k k0) eqn:E; simpl; rewrite ?E, ?String.eqb_refl, ?IH;
      reflexivity.
Qed.

Lemma dict_set_same (k : string) (v : pyval) (d : list (string * pyval)) :
  dict_get k d = Some v -> dict_set k v d = d.
Proof.
  induction d as [| [k0 v0] d IH]; simpl; [discriminate |].
  destruct (String.eqb_spec k k0) as [-> | Hne].
  - intros [= ->]. reflexivity.
  - intros H. rewrite (IH H). reflexivity.
Qed.

Lemma remove_first_app_last (s : string) (l : list pyval) :
  existsb (is_str s) l = false -> remove_first s (l ++ [PStr s]) = Some l.
Proof.
  induction l as [| v l IH]; simpl.
  - rewrite String.eqb_refl. reflexivity.
  - destruct (is_str s v); simpl; [discriminate |].
    intros H. rewrite (IH H). reflexivity.
Qed.

(** On a service that answers, after [add_tag_to_post] on a known post whose
    tags are a list (or missing) the tag is among the post's tags; after
    [remove_tag_from_post] on a post whose tags are a set it is not. *)
Theorem tag_edits_postcondition
    (c : string) (obj : list (string * pyval)) (t : Z) (w : World) :
  reliable w ->
  remote w !! c = Some obj ->
  ((dict_get "applied_tags" obj = None
    \/ exists l, dict_get "applied_tags" obj = Some (PList l)) ->
   exists l',
     applied_tags_of (PStr c)
       (snd (DiscordChatService.add_tag_to_post (PStr c) (Some t) w))
     = Some (PList l')
     /\ existsb (is_str (py_str_int t)) l' = true)
  /\ (tags_are_sets (remote w) ->
      forall l',
        applied_tags_of (PStr c)
          (snd (DiscordChatService.remove_tag_from_post (PStr c) (Some t) w))
        = Some (PList l') ->
        existsb (is_str (py_str_int t)) l' = false).
Proof.
  unfold reliable. intros Hs Hc.
  destruct (add_tag_to_post_remote (PStr c) t w Hs) as (Hadd & _).
  destruct (remove_tag_from_post_remote (PStr c) t w Hs) as (Hrem & _).
  unfold applied_tags_of, channel_object.
  rewrite Hadd, Hrem. unfold on_post. rewrite Hc, !lookup_insert_eq.
  split.
  - unfold add_tag. intros [Hn | [l Hl]].
    + rewrite Hn, dict_get_set. eexists. split; [reflexivity |].
      simpl. rewrite String.eqb_refl. reflexivity.
    + rewrite Hl. destruct (existsb (is_str (py_str_int t)) l) eqn:Hin.
      * rewrite Hl. eauto.
      * rewrite dict_get_set. eexists. split; [reflexivity |].
        apply existsb_is_str_app.
  - intros Hset l'. unfold remove_tag.
    destruct (dict_get "applied_tags" obj) as [v |] eqn:Hg;
      [| rewrite Hg; discriminate].
    destruct v as [ | | | | l | ]; try (rewrite Hg; discriminate).
    destruct (remove_first (py_str_int t) l) as [r |] eqn:Hr.
    + rewrite dict_get_set. intros [= <-].
      exact (proj1 (remove_first_gone _ _ _ (Hset c obj l Hc Hg) Hr)).
    + rewrite Hg. intros [= <-].
      destruct (existsb (is_str (py_str_int t)) l) eqn:Hin; [| reflexivity].
      destruct (remove_first_present _ _ Hin) as [r' Hr']. congruence.
Qed.

Lemma tag_edits_postcondition_witness :
  exists l',
    applied_tags_of (PStr "55")
      (snd (DiscordChatService.add_tag_to_post (PStr "55") (Some 9)
              (world_with_post [PStr "7"])))
    = Some (PList l')
    /\ existsb (is_str "9") l' = true.
Proof.
  exact (proj1 (tag_edits_postcondition "55" _ 9 (world_with_post [PStr "7"])
                  eq_refl eq_refl)
           (or_intror (ex_intro _ [PStr "7"] eq_refl))).
Defined.

(** On a service that answers, adding a tag that a known post does not have
    and removing it again gives back the store as it was: the post's tags and
    every other field and channel are as before. *)
Theorem add_then_remove_restores
    (c : string) (obj : list (string * pyval)) (l : list pyval) (t : Z) (w : World) :
  reliable w ->
  remote w !! c = Some obj ->
  dict_get "applied_tags" obj = Some (PList l) ->
  existsb (is_str (py_str_int t)) l = false ->
  let added := snd (DiscordChatService.add_tag_to_post (PStr c) (Some t) w) in
  let removed := snd (DiscordChatService.remove_tag_from_post (PStr c) (Some t) added) in
  applied_tags_of (PStr c) added = Some (PList (l ++ [PStr (py_str_int t)]))
  /\ remote removed = remote w
  /\ length (log removed) = (length (log w) + 4)%nat.
Proof.
  unfold reliable. intros Hs Hc Hl Hin. cbv zeta.
  destruct (add_tag_to_post_remote (PStr c) t w Hs) as (Hadd & Hs1 & Hlog1).
  destruct (remove_tag_from_post_remote (PStr c) t _ Hs1) as (Hrem & _ & Hlog2).
  assert (Hobj1 : channel_object (PStr c)
                    (remote (snd (DiscordChatService.add_tag_to_post (PStr c) (Some t) w)))
                  = dict_set "applied_tags" (PList (l ++ [PStr (py_str_int t)])) obj).
  { rewrite Hadd. unfold channel_object, on_post. rewrite Hc, lookup_insert_eq.
    unfold add_tag. rewrite Hl, Hin. reflexivity. }
  split; [| split].
  - unfold applied_tags_of. rewrite Hobj1. apply dict_get_set.
  - rewrite Hrem. unfold on_post.
    unfold channel_object in Hobj1.
    destruct (remote (snd (DiscordChatService.add_tag_to_post (PStr c) (Some t) w)) !! c)
      as [obj1 |] eqn:Hlook.
    + subst obj1. unfold remove_tag. rewrite dict_get_set.
      rewrite (remove_first_app_last _ _ Hin), dict_set_set, (dict_set_same _ _ _ Hl).
      rewrite Hadd. unfold on_post. rewrite Hc.
      rewrite insert_insert_eq. apply insert_id. exact Hc.
    + rewrite Hadd in Hlook. unfold on_post in Hlook. rewrite Hc in Hlook.
      rewrite lookup_insert_eq in Hlook. discriminate.
  - rewrite Hlog2, Hobj1, dict_get_set, (remove_first_app_last _ _ Hin).
    rewrite Hlog1. unfold channel_object. rewrite Hc, Hl, Hin.
    rewrite !length_app. simpl. lia.
Qed.

Lemma add_then_remove_restores_witness :
  let w := world_with_post [PStr "7"] in
  let added := snd (DiscordChatService.add_tag_to_post (PStr "55") (Some 9) w) in
  let removed :=
    snd (DiscordChatService.remove_tag_from_post (PStr "55") (Some 9) added) in
  applied_tags_of (PStr "55") added = Some (PList [PStr "7"; PStr "9"])
  /\ remote removed = remote w.
Proof.
  cbv zeta.
  destruct (add_then_remove_restores "55" _ [PStr "7"] 9 (world_with_post [PStr "7"])
              eq_refl eq_refl eq_refl eq_refl) as (H1 & H2 & _).
  split; [exact H1 | exact H2].
Defined.

(** ** Renaming a post and writing its message *)

(** On a service that answers, renaming a known post sets its name and
    nothing else: every other field of the post, its tags among them, and
    every other channel stay as they are. A post the service does not know is
    not created. *)
Theorem rename_changes_only_the_name
    (c new_name : string) (w : World) :
  reliable w ->
  let out := DiscordChatService.handle_puzzle_rename (PStr c) new_name w in
  fst out = Ok tt
  /\ (forall c', c' <> c -> remote (snd out) !! c' = remote w !! c')
  /\ (forall obj, remote w !! c = Some obj ->
        remote (snd out) !! c = Some (dict_set "name" (PStr new_name) obj)
        /\ dict_get "name" (channel_object (PStr c) (remote (snd out)))
           = Some (PStr new_name)
        /\ forall k, k <> "name" ->
             dict_get k (channel_object (PStr c) (remote (snd out))) = dict_get k obj)
  /\ (remote w !! c = None -> remote (snd out) = remote w).
Proof.
  unfold reliable. intros Hs. cbv zeta.
  unfold DiscordChatService.handle_puzzle_rename,
    DiscordChatService.edit_forum_post_name.
  se_unfold.
  destruct (requests_patch_reliable (PStr c) [("name", PStr new_name)] w Hs)
    as [answer ->].
  simpl. unfold on_post, channel_object.
  split; [reflexivity |]. split; [| split].
  - intros c' Hne. destruct (remote w !! c) eqn:Hc; [| reflexivity].
    apply lookup_insert_ne. congruence.
  - intros obj Hc. rewrite Hc, lookup_insert_eq.
    split; [reflexivity |]. split; [apply dict_get_set |].
    intros k Hk. apply dict_get_set_ne. exact Hk.
  - intros Hc. rewrite Hc. reflexivity.
Qed.

Lemma rename_changes_only_the_name_witness :
  let out :=
    DiscordChatService.handle_puzzle_rename (PStr "55") "Solved puzzle"
      (world_with_post [PStr "7"]) in
  dict_get "name" (channel_object (PStr "55") (remote (snd out)))
  = Some (PStr "Solved puzzle")
  /\ dict_get "applied_tags" (channel_object (PStr "55") (remote (snd out)))
     = Some (PList [PStr "7"]).
Proof.
  cbv zeta.
  destruct (rename_changes_only_the_name "55" "Solved puzzle"
              (world_with_post [PStr "7"]) eq_refl) as (_ & _ & H & _).
  destruct (H _ eq_refl) as (_ & Hname & Hother).
  split; [exact Hname |].
  rewrite (Hother "applied_tags"); [reflexivity | discriminate].
Defined.

(** ** Creating threads and channels *)

Lemma string_of_uint_nonempty (d : Decimal.uint) :
  String.eqb (NilZero.string_of_uint d) "" = false.
Proof. destruct d; reflexivity. Qed.

Lemma fresh_id_truthy (w : World) : truthy (PStr (fresh_id w)) = true.
Proof. unfold fresh_id. simpl. rewrite string_of_uint_nonempty. reflexivity. Qed.

Lemma N_to_uint_nonnil (n : N) : N.to_uint n <> Decimal.Nil.
Proof.
  destruct n as [| p]; simpl; [discriminate |].
  apply DecimalPos.Unsigned.to_uint_nonnil.
Qed.

(** Ids of different counters differ. *)
Lemma string_of_counter_inj (n n' : N) :
  NilZero.string_of_uint (N.to_uint n) = NilZero.string_of_uint (N.to_uint n') ->
  n = n'.
Proof.
  intros H. apply (f_equal NilZero.uint_of_string) in H.
  rewrite !NilZero.usu in H by apply N_to_uint_nonnil.
  injection H as H. apply DecimalN.Unsigned.to_uint_inj. exact H.
Qed.

Lemma requests_post_reliable (e : endpoint) (body : pyval) (w : World) :
  script w = [] ->
  requests POST e body w
  = (Ok (Some (fst (serve {| verb := POST; target := e; payload := body |}
                      (with_log (log w ++ [{| verb := POST; target := e;
                                              payload := body |}]) w)))),
     snd (serve {| verb := POST; target := e; payload := body |}
            (with_log (log w ++ [{| verb := POST; target := e; payload := body |}]) w))).
Proof.
  intros Hs. unfold requests. simpl. rewrite Hs.
  destruct (serve _ _). reflexivity.
Qed.

(** On a service that answers, [create_forum_post] under a known forum
    channel creates one thread: it is stored under the next id with the
    puzzle's name, the forum as parent and the tag ids as strings in the given
    order (none when [tag_ids] is [None]). With a guild id, the result is that
    id and the URL built from the guild id and it. *)
Theorem create_forum_post_creates
    (f : string) (forum : list (string * pyval)) (puzzle_name content : string)
    (tag_ids : option (list Z)) (puzzle : Puzzle) (w : World) :
  reliable w ->
  remote w !! f = Some forum ->
  let out :=
    DiscordChatService.create_forum_post (PStr f) puzzle_name content tag_ids puzzle w in
  let id := fresh_id w in
  (exists thread,
      remote (snd out) !! id = Some thread
      /\ dict_get "id" thread = Some (PStr id)
      /\ dict_get "name" thread = Some (PStr puzzle_name)
      /\ dict_get "parent_id" thread = Some (PStr f)
      /\ dict_get "applied_tags" thread
         = Some (PList match tag_ids with
                       | Some ids => map (fun tag_id => PStr (py_str_int tag_id)) ids
                       | None => []
                       end))
  /\ (forall c, c <> id -> remote (snd out) !! c = remote w !! c)
  /\ next_id (snd out) = N.succ (next_id w)
  /\ (truthy (DiscordChatService.get_guild_id puzzle) = true ->
      fst out
      = Ok (Some (PStr id, ChannelUrl (DiscordChatService.get_guild_id puzzle) (PStr id)))).
Proof.
  unfold reliable. intros Hs Hf. cbv zeta.
  unfold DiscordChatService.create_forum_post.
  se_unfold. rewrite (requests_post_reliable _ _ _ Hs).
  unfold serve. simpl. rewrite Hf. unfold create_object. simpl.
  fold (fresh_id w).
  unfold DiscordChatService.create_channel_url.
  rewrite fresh_id_truthy.
  split; [| split; [| split]].
  - destruct (truthy (DiscordChatService.get_guild_id puzzle)); simpl;
      rewrite lookup_insert_eq; eexists; (split; [reflexivity |]);
      repeat split.
  - intros c Hc.
    destruct (truthy (DiscordChatService.get_guild_id puzzle)); simpl;
      apply lookup_insert_ne; congruence.
  - destruct (truthy (DiscordChatService.get_guild_id puzzle)); reflexivity.
  - intros ->. reflexivity.
Qed.

Lemma create_forum_post_creates_witness :
  let p := puzzle (Simulated.feeder_room PNone []) in
  let out :=
    DiscordChatService.create_forum_post (PStr "55") "Feeder" "" (Some [NEW_TAG]) p
      (world_with_post []) in
  fst out = Ok (Some (PStr "100", ChannelUrl (PStr "guild") (PStr "100")))
  /\ applied_tags_of (PStr "100") (snd out)
     = Some (PList [PStr "1320198250489319434"]).
Proof.
  cbv zeta.
  destruct (create_forum_post_creates "55" _ "Feeder" "" (Some [NEW_TAG])
              (puzzle (Simulated.feeder_room PNone [])) (world_with_post [])
              eq_refl eq_refl) as (_ & _ & _ & H).
  split; [exact (H eq_refl) | reflexivity].
Defined.

(** Without a guild id in the puzzle's hunt, [create_forum_post] still sends
    the request: on a service that answers, the thread is created under a
    known forum and stored, but the call returns [None], the missing-guild
    error of [create_channel_url] having been swallowed with the rest; the
    caller does not learn the id of the thread it made. *)
Theorem create_forum_post_without_guild_loses_the_thread
    (f : string) (forum : list (string * pyval)) (puzzle_name content : string)
    (tag_ids : option (list Z)) (puzzle : Puzzle) (w : World) :
  reliable w ->
  remote w !! f = Some forum ->
  truthy (DiscordChatService.get_guild_id puzzle) = false ->
  let out :=
    DiscordChatService.create_forum_post (PStr f) puzzle_name content tag_ids puzzle w in
  fst out = Ok None
  /\ is_Some (remote (snd out) !! fresh_id w)
  /\ next_id (snd out) = N.succ (next_id w)
  /\ stdout (snd out)
     = stdout w
       ++ [("Error creating forum post",
            Some (PyException "Missing guild_id or channel_id"))].
Proof.
  unfold reliable. intros Hs Hf Hg. cbv zeta.
  unfold DiscordChatService.create_forum_post.
  se_unfold. rewrite (requests_post_reliable _ _ _ Hs).
  unfold serve. simpl. rewrite Hf. unfold create_object. simpl.
  fold (fresh_id w).
  unfold DiscordChatService.create_channel_url.
  rewrite Hg. simpl.
  rewrite lookup_insert_eq. repeat split. eexists. reflexivity.
Qed.

Lemma create_forum_post_without_guild_loses_the_thread_witness :
  let p :=
    {| puzzle_name := "Feeder"; is_meta := false;
       hunt := {| hunt_id := 1; discord_guild_id := PNone;
                  discord_puzzle_announcements_channel_id := PNone |};
       field_url_map := []; metas := [] |} in
  let out :=
    DiscordChatService.create_forum_post (PStr "55") "Feeder" "" (Some [NEW_TAG]) p
      (world_with_post []) in
  fst out = Ok None /\ is_Some (remote (snd out) !! "100").
Proof.
  cbv zeta.
  destruct (create_forum_post_without_guild_loses_the_thread "55" _ "Feeder" ""
              (Some [NEW_TAG])
              {| puzzle_name := "Feeder"; is_meta := false;
                 hunt := {| hunt_id := 1; discord_guild_id := PNone;
                            discord_puzzle_announcements_channel_id := PNone |};
                 field_url_map := []; metas := [] |}
              (world_with_post []) eq_refl eq_refl eq_refl) as (H1 & H2 & _).
  split; [exact H1 | exact H2].
Defined.

(** On a service that answers, [create_forum_channel] in a guild stores a
    forum channel (type 15, no parent) of that name under the next id and
    returns the id. *)
Lemma create_forum_channel_reliable (g name : string) (w : World) :
  script w = [] ->
  truthy (PStr g) = true ->
  DiscordChatService.create_forum_channel (PStr g) name w
  = (Ok (PStr (fresh_id w)),
     with_next_id (N.succ (next_id w))
       (with_remote (<[fresh_id w := forum_object g name (fresh_id w)]> (remote w))
          (with_log
             (log w ++ [post_channel_request (PStr g) name CHANNEL_FORUM_TYPE PNone])
             w))).
Proof.
  intros Hs Hg.
  unfold DiscordChatService.create_forum_channel,
    DiscordChatService._create_channel_impl.
  rewrite Hg. se_unfold. simpl.
  rewrite (requests_post_reliable _ _ _ Hs).
  unfold serve, create_object. simpl. reflexivity.
Qed.

(** ** create_channels on a meta puzzle's room: what becomes of the id *)

(** C5. On the room of a meta puzzle with no forum-channel id,
    [create_channels] calls [create_forum] exactly once, with the hunt's guild
    id and the room's name, and makes no other call. What the room holds
    afterwards is decided by that one call. When it returns, the room stores
    what it returned and saves it under
    [update_fields = ["forum_channel_id"]]; when it raises, [create_channels]
    raises the same exception, the room is as it was and nothing is saved. So
    the forum-channel id is not null afterwards exactly when the call
    returned an id: it stays null when the gateway swallowed a failure and
    returned [None], and when the call raised. With the client's
    [create_forum_channel] for [create_forum], a hunt whose guild id is a
    non-empty string and a service that answers, the call is one POST to the
    channels of the hunt's guild, and the id stored is the one of the forum
    channel the service now has. *)
Theorem create_channels_meta_creates_forum (service : ChatService.t) (st : State) :
  is_meta (puzzle (self st)) = true ->
  forum_channel_id (self st) = PNone ->
  let out := ChatRoom.create_channels service st in
  let st' := snd out in
  let answer :=
    ChatService.create_forum service
      (ChatRoom.get_guild_id (self st)) (name (self st)) (world st) in
  calls st'
  = calls st ++ [create_forum_call (ChatRoom.get_guild_id (self st)) (name (self st))]
  /\ world st' = snd answer
  /\ post_id (self st') = post_id (self st)
  /\ post_url (self st') = post_url (self st)
  /\ (forall v,
        fst answer = Ok v ->
        fst out = Ok tt
        /\ forum_channel_id (self st') = v
        /\ saved st'
           = saved st
             ++ [(set_forum_channel_id v (columns (self st)), ["forum_channel_id"])])
  /\ (forall e,
        fst answer = Raise e ->
        fst out = Raise e
        /\ self st' = self st
        /\ saved st' = saved st)
  /\ (forum_channel_id (self st') <> PNone
      <-> exists v, fst answer = Ok v /\ v <> PNone)
  /\ (forall g,
        ChatService.create_forum service = DiscordChatService.create_forum_channel ->
        ChatRoom.get_guild_id (self st) = PStr g ->
        truthy (PStr g) = true ->
        reliable (world st) ->
        fst out = Ok tt
        /\ forum_channel_id (self st') = PStr (fresh_id (world st))
        /\ forum_channel_id (self st') <> PNone
        /\ log (world st')
           = log (world st)
             ++ [post_channel_request (PStr g) (name (self st)) CHANNEL_FORUM_TYPE PNone]
        /\ remote (world st') !! fresh_id (world st)
           = Some (forum_object g (name (self st)) (fresh_id (world st)))).
Proof.
  intros Hm Hf. cbv zeta.
  assert (Hrun :
    ChatRoom.create_channels service st
    = match ChatService.create_forum service
              (ChatRoom.get_guild_id (self st)) (name (self st)) (world st) with
      | (Ok v, w') =>
          (Ok tt,
           {| self := {| columns := set_forum_channel_id v (columns (self st));
                         puzzle := puzzle (self st) |};
              world := w';
              calls := calls st
                       ++ [create_forum_call (ChatRoom.get_guild_id (self st))
                             (name (self st))];
              saved := saved st
                       ++ [(set_forum_channel_id v (columns (self st)),
                            ["forum_channel_id"])] |})
      | (Raise e, w') =>
          (Raise e,
           {| self := self st; world := w';
              calls := calls st
                       ++ [create_forum_call (ChatRoom.get_guild_id (self st))
                             (name (self st))];
              saved := saved st |})
      end).
  { unfold ChatRoom.create_channels. se_unfold. simpl.
    rewrite Hm, Hf. simpl.
    destruct (ChatService.create_forum service _ _ _) as [[v | e] w']; reflexivity. }
  assert (Hgen :
    forall answer,
      ChatService.create_forum service
        (ChatRoom.get_guild_id (self st)) (name (self st)) (world st) = answer ->
      calls (snd (ChatRoom.create_channels service st))
      = calls st
        ++ [create_forum_call (ChatRoom.get_guild_id (self st)) (name (self st))]
      /\ world (snd (ChatRoom.create_channels service st)) = snd answer
      /\ post_id (self (snd (ChatRoom.create_channels service st))) = post_id (self st)
      /\ post_url (self (snd (ChatRoom.create_channels service st))) = post_url (self st)
      /\ (forall v,
            fst answer = Ok v ->
            fst (ChatRoom.create_channels service st) = Ok tt
            /\ forum_channel_id (self (snd (ChatRoom.create_channels service st))) = v
            /\ saved (snd (ChatRoom.create_channels service st))
               = saved st
                 ++ [(set_forum_channel_id v (columns (self st)),
                      ["forum_channel_id"])])
      /\ (forall e,
            fst answer = Raise e ->
            fst (ChatRoom.create_channels service st) = Raise e
            /\ self (snd (ChatRoom.create_channels service st)) = self st
            /\ saved (snd (ChatRoom.create_channels service st)) = saved st)
      /\ (forum_channel_id (self (snd (ChatRoom.create_channels service st))) <> PNone
          <-> exists v, fst answer = Ok v /\ v <> PNone)).
  { intros answer Ha. rewrite Hrun, Ha. clear Hrun Ha.
    destruct answer as [[v | e] w']; simpl.
    - split; [reflexivity |]. split; [reflexivity |]. split; [reflexivity |].
      split; [reflexivity |].
      split; [intros v0 [= <-]; repeat split; reflexivity |].
      split; [intros e H; discriminate H |].
      split.
      + intros Hv. exists v. split; [reflexivity | exact Hv].
      + intros (v0 & [= <-] & Hv). exact Hv.
    - split; [reflexivity |]. split; [reflexivity |]. split; [reflexivity |].
      split; [reflexivity |].
      split; [intros v H; discriminate H |].
      split; [intros e0 [= <-]; repeat split; reflexivity |].
      split.
      + intros Hne. exfalso. apply Hne. exact Hf.
      + intros (v & H & _). discriminate H. }
  destruct (Hgen _ eq_refl) as (H1 & H2 & H3 & H4 & H5 & H6 & H7).
  repeat (split; [assumption |]).
  intros g Hsvc Hg Hgt Hrel.
  pose proof (create_forum_channel_reliable g (name (self st)) (world st) Hrel Hgt)
    as Hc.
  rewrite <- Hg, <- Hsvc in Hc.
  destruct (H5 _ (f_equal fst Hc)) as (Ha & Hb & _).
  rewrite H2, Hb, Hc. simpl.
  split; [exact Ha |]. split; [reflexivity |]. split; [discriminate |].
  split; [rewrite Hg; reflexivity |].
  apply lookup_insert_eq.
Qed.

(** A sample run with the client: the service answers, and the room stores
    the id of the forum channel created in the hunt's guild. *)
Lemma create_channels_meta_creates_forum_witness :
  let st := Simulated.start (Simulated.meta_room PNone) Simulated.empty_world in
  let out := ChatRoom.create_channels (discord_service (client_ops (Ok PNone))) st in
  fst out = Ok tt
  /\ calls (snd out) = [create_forum_call (PStr "guild") "Meta"]
  /\ forum_channel_id (self (snd out)) = PStr "1"
  /\ forum_channel_id (self (snd out)) <> PNone
  /\ saved (snd out) = [(Simulated.room "Meta" (PStr "1") PNone, ["forum_channel_id"])]
  /\ log (world (snd out))
     = [{| verb := POST; target := GuildChannels (PStr "guild");
           payload := PDict [("name", PStr "Meta"); ("type", PInt CHANNEL_FORUM_TYPE);
                             ("parent_id", PNone)] |}].
Proof.
  cbv zeta.
  pose proof (create_channels_meta_creates_forum
                (discord_service (client_ops (Ok PNone)))
                (Simulated.start (Simulated.meta_room PNone) Simulated.empty_world)
                eq_refl eq_refl)
    as (Hcalls & _ & _ & _ & Hok & _ & Hiff & Hclient).
  cbv zeta in Hok, Hiff, Hclient.
  destruct (Hok (PStr "1") eq_refl) as (_ & _ & Hsaved).
  destruct (Hclient "guild" eq_refl eq_refl eq_refl eq_refl)
    as (Hret & Hid & Hnn & Hlog & _).
  split; [exact Hret |]. split; [exact Hcalls |]. split; [exact Hid |].
  split; [exact Hnn |]. split; [exact Hsaved |]. exact Hlog.
Defined.

(** C5, as stated, fails. The room of a meta puzzle has no forum-channel id
    and [create_channels] is called once. In the first run the request for
    the forum channel is refused: the client swallows the failure and returns
    [None], and the room stores and saves that null. In the second run the
    hunt has no guild id: the client raises before any request is made, and
    nothing is stored or saved. *)
Lemma create_channels_meta_forum_stays_null :
  let service := discord_service (client_ops (Ok PNone)) in
  let refused :=
    Simulated.start (Simulated.meta_room PNone)
      (with_script [Refused] Simulated.empty_world) in
  let no_guild :=
    Simulated.start
      {| columns := Simulated.room "Meta" PNone PNone;
         puzzle := {| puzzle_name := "Meta"; is_meta := true;
                      hunt := {| hunt_id := 2; discord_guild_id := PNone;
                                 discord_puzzle_announcements_channel_id := PNone |};
                      field_url_map := []; metas := [] |} |}
      Simulated.empty_world in
  (is_meta (puzzle (self refused)) = true
   /\ forum_channel_id (self refused) = PNone
   /\ fst (ChatRoom.create_channels service refused) = Ok tt
   /\ log (world (snd (ChatRoom.create_channels service refused)))
      = [post_channel_request (PStr "guild") "Meta" CHANNEL_FORUM_TYPE PNone]
   /\ remote (world (snd (ChatRoom.create_channels service refused))) = ∅
   /\ forum_channel_id (self (snd (ChatRoom.create_channels service refused))) = PNone
   /\ saved (snd (ChatRoom.create_channels service refused))
      = [(Simulated.room "Meta" PNone PNone, ["forum_channel_id"])])
  /\ (is_meta (puzzle (self no_guild)) = true
      /\ forum_channel_id (self no_guild) = PNone
      /\ fst (ChatRoom.create_channels service no_guild)
         = Raise (PyException "Missing guild_id")
      /\ log (world (snd (ChatRoom.create_channels service no_guild))) = []
      /\ forum_channel_id (self (snd (ChatRoom.create_channels service no_guild)))
         = PNone
      /\ saved (snd (ChatRoom.create_channels service no_guild)) = []).
Proof. cbv zeta. repeat split; reflexivity. Qed.

(** The client does not look before it creates: on a service that answers,
    two calls of [create_forum_channel] with the same guild and name make two
    forum channels of that name, under two different ids. *)
Theorem create_forum_channel_twice_duplicates (g name : string) (w : World) :
  reliable w ->
  truthy (PStr g) = true ->
  let first := DiscordChatService.create_forum_channel (PStr g) name w in
  let second := DiscordChatService.create_forum_channel (PStr g) name (snd first) in
  exists id1 id2,
    fst first = Ok (PStr id1)
    /\ fst second = Ok (PStr id2)
    /\ id1 <> id2
    /\ remote (snd second) !! id1 = Some (forum_object g name id1)
    /\ remote (snd second) !! id2 = Some (forum_object g name id2).
Proof.
  unfold reliable. intros Hs Hg. cbv zeta.
  exists (fresh_id w), (NilZero.string_of_uint (N.to_uint (N.succ (next_id w)))).
  rewrite (create_forum_channel_reliable g name w Hs Hg). simpl.
  rewrite create_forum_channel_reliable by (first [exact Hs | exact Hg]). simpl.
  assert (Hne : fresh_id w <> NilZero.string_of_uint (N.to_uint (N.succ (next_id w)))).
  { unfold fresh_id. intros H. apply string_of_counter_inj in H. lia. }
  change (fresh_id (with_next_id (N.succ (next_id w))
                      (with_remote
                         (<[fresh_id w := forum_object g name (fresh_id w)]> (remote w))
                         (with_log
                            (log w
                             ++ [post_channel_request (PStr g) name
                                   CHANNEL_FORUM_TYPE PNone]) w))))
    with (NilZero.string_of_uint (N.to_uint (N.succ (next_id w)))).
  repeat split; try assumption.
  - rewrite lookup_insert_ne by (intros E; apply Hne; symmetry; exact E).
    apply lookup_insert_eq.
  - apply lookup_insert_eq.
Qed.

Lemma create_forum_channel_twice_duplicates_witness :
  let first :=
    DiscordChatService.create_forum_channel (PStr "guild") "Meta" Simulated.empty_world in
  let second :=
    DiscordChatService.create_forum_channel (PStr "guild") "Meta" (snd first) in
  exists id1 id2,
    fst first = Ok (PStr id1) /\ fst second = Ok (PStr id2) /\ id1 <> id2.
Proof.
  cbv zeta.
  destruct (create_forum_channel_twice_duplicates "guild" "Meta" Simulated.empty_world
              eq_refl eq_refl) as (id1 & id2 & H1 & H2 & H3 & _).
  exists id1, id2. auto.
Defined.

Lemma List_filter_Permutation {A} (P : A -> bool) (l l' : list A) :
  Permutation l l' -> Permutation (List.filter P l) (List.filter P l').
Proof.
  induction 1 as [| x l l' H IH | x y l | l l' l'' H1 IH1 H2 IH2]; simpl.
  - constructor.
  - destruct (P x); [constructor |]; exact IH.
  - destruct (P x), (P y); try reflexivity. constructor.
  - etransitivity; eassumption.
Qed.

(** The channels of a guild that had none, after one was stored for it. *)
Lemma guild_channels_first (g id : string) (obj : list (string * pyval))
    (r : gmap string (list (string * pyval))) :
  guild_channels g r = [] ->
  r !! id = None ->
  dict_get "guild_id" obj = Some (PStr g) ->
  guild_channels g (<[id := obj]> r) = [PDict obj].
Proof.
  unfold guild_channels. intros Hnone Hfresh Hg.
  apply map_eq_nil in Hnone.
  pose proof (map_to_list_insert r id obj Hfresh) as Hperm.
  apply (List_filter_Permutation
           (fun kv => match dict_get "guild_id" (snd kv) with
                      | Some v => is_str g v
                      | None => false
                      end)) in Hperm.
  simpl in Hperm. rewrite Hg in Hperm. simpl in Hperm.
  rewrite String.eqb_refl, Hnone in Hperm.
  apply Permutation_singleton_r in Hperm. rewrite Hperm. reflexivity.
Qed.

Lemma requests_list_reliable (g : string) (w : World) :
  script w = [] ->
  requests GET (GuildChannels (PStr g)) PNone w
  = (Ok (Some (PList (guild_channels g (remote w)))),
     with_log (log w ++ [list_channels_request (PStr g)]) w).
Proof.
  intros Hs. unfold requests, serve. simpl. rewrite Hs. reflexivity.
Qed.

(** On a service that answers, in a guild that has no channel yet,
    [_get_or_create_forum_channel] creates the forum channel, and a second
    call with the same name finds it: it returns the same id after one listing
    request and creates nothing. *)
Theorem get_or_create_forum_channel_finds (g name : string) (w : World) :
  reliable w ->
  truthy (PStr g) = true ->
  guild_channels g (remote w) = [] ->
  remote w !! fresh_id w = None ->
  let first := DiscordChatService._get_or_create_forum_channel (PStr g) name w in
  let second :=
    DiscordChatService._get_or_create_forum_channel (PStr g) name (snd first) in
  fst first = Ok (PStr (fresh_id w))
  /\ remote (snd first) = <[fresh_id w := forum_object g name (fresh_id w)]> (remote w)
  /\ log (snd first)
     = log w ++ [list_channels_request (PStr g);
                 post_channel_request (PStr g) name CHANNEL_FORUM_TYPE PNone]
  /\ fst second = Ok (PStr (fresh_id w))
  /\ remote (snd second) = remote (snd first)
  /\ log (snd second) = log (snd first) ++ [list_channels_request (PStr g)].
Proof.
  unfold reliable. intros Hs Hg Hnone Hfresh. cbv zeta.
  assert (Hfirst :
            DiscordChatService._get_or_create_forum_channel (PStr g) name w
            = DiscordChatService.create_forum_channel (PStr g) name
                (with_log (log w ++ [list_channels_request (PStr g)]) w)).
  { unfold DiscordChatService._get_or_create_forum_channel,
      DiscordChatService._get_channels_for_guild.
    rewrite Hg. se_unfold. simpl.
    rewrite (requests_list_reliable g w Hs), Hnone. reflexivity. }
  rewrite Hfirst.
  rewrite create_forum_channel_reliable by (first [exact Hs | exact Hg]). simpl.
  change (fresh_id (with_log (log w ++ [list_channels_request (PStr g)]) w))
    with (fresh_id w).
  split; [reflexivity |]. split; [reflexivity |].
  split; [rewrite <- app_assoc; reflexivity |].
  unfold DiscordChatService._get_or_create_forum_channel,
    DiscordChatService._get_channels_for_guild.
  rewrite Hg. se_unfold. simpl.
  rewrite requests_list_reliable by exact Hs. simpl.
  rewrite (guild_channels_first g (fresh_id w) (forum_object g name (fresh_id w))
             (remote w) Hnone Hfresh eq_refl).
  simpl. rewrite String.eqb_refl. simpl.
  repeat split.
Qed.

Lemma get_or_create_forum_channel_finds_witness :
  let first :=
    DiscordChatService._get_or_create_forum_channel (PStr "guild") "Meta"
      Simulated.empty_world in
  let second :=
    DiscordChatService._get_or_create_forum_channel (PStr "guild") "Meta" (snd first) in
  fst first = Ok (PStr "1")
  /\ fst second = Ok (PStr "1")
  /\ remote (snd second) = remote (snd first).
Proof.
  cbv zeta.
  destruct (get_or_create_forum_channel_finds "guild" "Meta" Simulated.empty_world
              eq_refl eq_refl eq_refl eq_refl) as (H1 & _ & _ & H4 & H5 & _).
  auto.
Defined.

(** ** The role lookup *)

Lemma role_matches_test (tag_name : string) (puzzle : Puzzle) (role : ChatRole) :
  (iexact (role_name role) tag_name
   && Z.eqb (role_hunt role) (hunt_id (hunt puzzle)))%bool = true
  <-> role_matches tag_name puzzle role.
Proof.
  unfold role_matches. rewrite andb_true_iff, Z.eqb_eq. tauto.
Qed.

(** The role [handle_tag_added] looks up is the first row of the table, in
    primary-key order, that belongs to the puzzle's hunt and whose name is the
    tag name up to case; the lookup finds nothing exactly when no row is such
    a role. *)
Theorem role_query_is_first_match
    (tag_name : string) (puzzle : Puzzle) (table : list ChatRole) :
  (forall role,
      DiscordChatService.role_query tag_name puzzle table = Some role ->
      role_matches tag_name puzzle role
      /\ exists before after,
           table = before ++ role :: after
           /\ forall r, In r before -> ~ role_matches tag_name puzzle r)
  /\ (DiscordChatService.role_query tag_name puzzle table = None
      <-> forall r, In r table -> ~ role_matches tag_name puzzle r).
Proof.
  unfold DiscordChatService.role_query.
  induction table as [| x table [IHsome IHnone]]; simpl.
  - split; [discriminate |]. split; [intros _ r [] | reflexivity].
  - destruct (iexact (role_name x) tag_name
              && Z.eqb (role_hunt x) (hunt_id (hunt puzzle)))%bool eqn:E; simpl.
    + apply role_matches_test in E. split.
      * intros role [= <-]. split; [exact E |].
        exists [], table. split; [reflexivity | intros r []].
      * split; [discriminate |]. intros H. exfalso. exact (H x (or_introl eq_refl) E).
    + assert (Hx : ~ role_matches tag_name puzzle x).
      { intros Hm. apply role_matches_test in Hm. congruence. }
      split.
      * intros role Hq. destruct (IHsome role Hq) as (Hm & before & after & -> & Hb).
        split; [exact Hm |].
        exists (x :: before), after. split; [reflexivity |].
        intros r [<- | Hin]; [exact Hx | exact (Hb r Hin)].
      * rewrite IHnone. split.
        -- intros H r [<- | Hin]; [exact Hx | exact (H r Hin)].
        -- intros H r Hin. exact (H r (or_intror Hin)).
Qed.

(** ** Handlers of a room without a post *)

(** On a room whose post id is missing (null or empty) the handlers that act
    on the post do nothing at all, whatever the service: no call, no request,
    no change of the room. *)
Theorem handlers_without_post_do_nothing
    (service : ChatService.t) (st : State) :
  truthy (post_id (self st)) = false ->
  (forall new_name, ChatRoom.handle_puzzle_rename service new_name st = (Ok tt, st))
  /\ ChatRoom.handle_puzzle_solved service st = (Ok tt, st)
  /\ ChatRoom.handle_puzzle_unsolved service st = (Ok tt, st)
  /\ (forall msg puzzle,
         ChatRoom.send_message_with_embedded_urls service msg puzzle st = (Ok tt, st)).
Proof.
  intros Ht.
  unfold ChatRoom.handle_puzzle_rename, ChatRoom.handle_puzzle_solved,
    ChatRoom.handle_puzzle_unsolved, ChatRoom.send_message_with_embedded_urls,
    ChatRoom.send_message.
  se_unfold. simpl. rewrite Ht. repeat split.
Qed.

Lemma handlers_without_post_do_nothing_witness :
  let st :=
    Simulated.start (Simulated.feeder_room (PStr "") []) Simulated.empty_world in
  ChatRoom.handle_puzzle_solved (discord_service (client_ops (Ok PNone))) st
  = (Ok tt, st).
Proof.
  exact (proj1 (proj2 (handlers_without_post_do_nothing
                         (discord_service (client_ops (Ok PNone)))
                         (Simulated.start (Simulated.feeder_room (PStr "") [])
                            Simulated.empty_world)
                         eq_refl))).
Defined.

(** ** Announcing and sending *)

(** With the Discord client, [send_and_announce_message] and its variant with
    links return whatever the transport does. They call [announce] and then
    [send_message]; the requests are the announcement, if the hunt has an
    announcements channel, followed by the message to the room's post, if the
    room has one: two requests at most, in that order. *)
Theorem send_and_announce_message_requests
    (ops : ForumOps) (msg : string) (puzzle : option Puzzle) (st : State) :
  let ch := ChatRoom.announcements_channel (self st) in
  let post := post_id (self st) in
  let urls := ChatRoom.urls_of puzzle in
  let plain := ChatRoom.send_and_announce_message (discord_service ops) msg st in
  let linked :=
    ChatRoom.send_and_announce_message_with_embedded_urls (discord_service ops)
      msg puzzle st in
  (fst plain = Ok tt
   /\ calls (snd plain)
      = calls st ++ announce_call ch msg []
          :: (if truthy post then [send_message_call post msg []] else [])
   /\ log (world (snd plain))
      = log (world st) ++ message_requests ch msg [] ++ message_requests post msg []
   /\ self (snd plain) = self st)
  /\ (fst linked = Ok tt
      /\ calls (snd linked)
         = calls st ++ announce_call ch msg urls
             :: (if truthy post then [send_message_call post msg urls] else [])
      /\ log (world (snd linked))
         = log (world st) ++ message_requests ch msg urls
             ++ message_requests post msg urls
      /\ self (snd linked) = self st).
Proof.
  cbv zeta.
  assert (H : forall urls,
             let out :=
               (invoke (announce_call (ChatRoom.announcements_channel (self st)) msg urls)
                  (ChatService.announce (discord_service ops)
                     (ChatRoom.announcements_channel (self st)) msg urls) ;;;
                ChatRoom.send_message (discord_service ops) msg urls) st in
             fst out = Ok tt
             /\ calls (snd out)
                = calls st ++ announce_call (ChatRoom.announcements_channel (self st)) msg urls
                    :: (if truthy (post_id (self st))
                        then [send_message_call (post_id (self st)) msg urls] else [])
             /\ log (world (snd out))
                = log (world st)
                  ++ message_requests (ChatRoom.announcements_channel (self st)) msg urls
                  ++ message_requests (post_id (self st)) msg urls
             /\ self (snd out) = self st).
  { intros urls. cbv zeta.
    unfold ChatRoom.send_message, message_requests. se_unfold. simpl.
    unfold DiscordChatService.announce.
    destruct (truthy (ChatRoom.announcements_channel (self st))); simpl.
    - pose proof (discord_send_message_log (ChatRoom.announcements_channel (self st))
                    msg urls (world st)) as (Hr1 & Hl1).
      destruct (DiscordChatService.send_message _ _ _ (world st)) as [r1 w1].
      simpl in *. subst r1. simpl.
      destruct (truthy (post_id (self st))); simpl.
      + pose proof (discord_send_message_log (post_id (self st)) msg urls w1)
          as (Hr2 & Hl2).
        destruct (DiscordChatService.send_message _ _ _ w1) as [r2 w2].
        simpl in *. subst r2. rewrite Hl2, Hl1. repeat split; rewrite <- ?app_assoc; reflexivity.
      + rewrite Hl1, ?app_nil_r. repeat split; rewrite <- ?app_assoc; reflexivity.
    - destruct (truthy (post_id (self st))); simpl.
      + pose proof (discord_send_message_log (post_id (self st)) msg urls (world st))
          as (Hr2 & Hl2).
        destruct (DiscordChatService.send_message _ _ _ (world st)) as [r2 w2].
        simpl in *. subst r2. rewrite Hl2. repeat split; rewrite <- ?app_assoc; reflexivity.
      + rewrite ?app_nil_r. repeat split; rewrite <- ?app_assoc; reflexivity. }
  split.
  - exact (H []).
  - exact (H (ChatRoom.urls_of puzzle)).
Qed.

(** ** What create_channels saves and what it leaves alone *)

(** Whatever the service does, [create_channels] keeps the room's puzzle,
    service and name; on a meta puzzle's room it never touches the post id and
    URL, on any other room never the forum-channel id. It saves exactly once
    when it returns, with the columns as they are then, and not at all when it
    raises. *)
Theorem create_channels_frame (svc : ChatService.t) (st : State) :
  let out := ChatRoom.create_channels svc st in
  let r := self (snd out) in
  puzzle r = puzzle (self st)
  /\ service r = service (self st)
  /\ name r = name (self st)
  /\ (is_meta (puzzle (self st)) = true ->
      post_id r = post_id (self st) /\ post_url r = post_url (self st))
  /\ (is_meta (puzzle (self st)) = false ->
      forum_channel_id r = forum_channel_id (self st))
  /\ (raised (fst out) = true -> saved (snd out) = saved st)
  /\ (raised (fst out) = false ->
      exists update_fields,
        saved (snd out) = saved st ++ [(columns r, update_fields)]).
Proof.
  cbv zeta.
  unfold ChatRoom.create_channels, ChatRoom._get_forum_channel_name,
    ChatRoom.first_meta.
  se_unfold. simpl.
  destruct (is_meta (puzzle (self st))); simpl.
  - destruct (is_none (forum_channel_id (self st))); simpl.
    + destruct (ChatService.create_forum svc _ _ _) as [[v | e] w']; simpl;
        repeat split; intros; try discriminate; eauto.
    + repeat split; intros; try discriminate; eauto.
  - destruct (order_by_created_on (metas (puzzle (self st)))) as [| m rest]; simpl.
    + repeat split; intros; try discriminate; eauto.
    + destruct (meta_chat_room m); simpl.
      * destruct (is_none (post_id (self st))); simpl.
        -- destruct (ChatService.create_post svc _ _ _ _ _ _) as [[v | e] w1];
             simpl.
           ++ destruct (ChatService.create_channel_url svc _ _ _)
                as [[u | e] w2]; simpl;
                repeat split; intros; try discriminate; eauto.
           ++ repeat split; intros; try discriminate; eauto.
        -- repeat split; intros; try discriminate; eauto.
      * repeat split; intros; try discriminate; eauto.
Qed.

(** ** A tag from the room to the wire *)

(** With the Discord client, [ChatRoom.handle_tag_added] returns whatever the
    transport does and sends at most one request. A priority tag goes to the
    room's post as "This puzzle was marked <tag>" (nothing without a post
    id), and the roles are not consulted. Any other tag goes to the hunt's
    announcements channel as the mention of the first role of the tagged
    puzzle's hunt that bears its name up to case (nothing without such a role
    or without an announcements channel), and the room's post gets nothing. *)
Theorem tag_added_end_to_end `{PuzzleTag}
    (ops : ForumOps) (puzzle : Puzzle) (tag_name : string) (st : State) :
  let out := ChatRoom.handle_tag_added (discord_service ops) puzzle tag_name st in
  fst out = Ok tt
  /\ self (snd out) = self st
  /\ (is_priority tag_name ->
      log (world (snd out))
      = log (world st)
        ++ message_requests (post_id (self st))
             ("This puzzle was marked " +:+ tag_name) [])
  /\ (~ is_priority tag_name ->
      log (world (snd out))
      = log (world st)
        ++ match first_matching_role (hunt_id (hunt puzzle)) tag_name
                   (chat_roles (world st)) with
           | Some rid =>
               message_requests (ChatRoom.announcements_channel (self st))
                 (mention puzzle rid) (field_url_map puzzle)
           | None => []
           end).
Proof.
  cbv zeta. unfold ChatRoom.handle_tag_added, message_requests.
  destruct (String.eqb tag_name HIGH_PRIORITY || String.eqb tag_name LOW_PRIORITY)%bool
    eqn:Hp.
  - apply is_priority_test in Hp.
    unfold ChatRoom.send_message. se_unfold. simpl.
    destruct (truthy (post_id (self st))); simpl.
    + pose proof (discord_send_message_log (post_id (self st))
                    ("This puzzle was marked " +:+ tag_name) [] (world st))
        as (Hr & Hl).
      destruct (DiscordChatService.send_message _ _ _ (world st)) as [r w1].
      simpl in *. subst r. repeat split; [intros _; exact Hl | contradiction].
    + repeat split; [intros _; rewrite app_nil_r; reflexivity | contradiction].
  - assert (Hnp : ~ is_priority tag_name).
    { intros Hq. apply is_priority_test in Hq. congruence. }
    se_unfold. simpl.
    unfold DiscordChatService.handle_tag_added. se_unfold. simpl.
    pose proof (role_query_first_matching tag_name puzzle (chat_roles (world st)))
      as Hq.
    destruct (DiscordChatService.role_query tag_name puzzle (chat_roles (world st)))
      as [role |]; simpl in Hq; rewrite <- Hq.
    + unfold DiscordChatService.announce, mention.
      destruct (truthy (ChatRoom.announcements_channel (self st))); simpl.
      * pose proof (discord_send_message_log (ChatRoom.announcements_channel (self st))
                      (puzzle_name puzzle +:+ " was tagged with <@&" +:+ role_id role
                       +:+ ">")
                      (field_url_map puzzle) (world st)) as (Hr & Hl).
        destruct (DiscordChatService.send_message _ _ _ (world st)) as [r w1].
        simpl in *. subst r. repeat split; [contradiction | intros _; exact Hl].
      * repeat split; [contradiction | intros _; rewrite app_nil_r; reflexivity].
    + repeat split; [contradiction | intros _; rewrite app_nil_r; reflexivity].
Qed.

(** ** An answer that is lost *)

(** When the answer to the creation request is lost on the way back, the
    forum channel exists at the service while [create_forum_channel] returns
    [None]: the caller is told nothing of the channel that was made. *)
Theorem lost_answer_leaves_unknown_channel
    (g name : string) (w : World) (rest : list fault) :
  script w = Lost :: rest ->
  truthy (PStr g) = true ->
  let out := DiscordChatService.create_forum_channel (PStr g) name w in
  fst out = Ok PNone
  /\ remote (snd out) !! fresh_id w = Some (forum_object g name (fresh_id w))
  /\ log (snd out)
     = log w ++ [post_channel_request (PStr g) name CHANNEL_FORUM_TYPE PNone].
Proof.
  intros Hs Hg. cbv zeta.
  unfold DiscordChatService.create_forum_channel,
    DiscordChatService._create_channel_impl, requests.
  rewrite Hg. se_unfold. simpl. rewrite Hs.
  unfold serve, create_object. simpl.
  rewrite lookup_insert_eq. repeat split.
Qed.

Lemma lost_answer_leaves_unknown_channel_witness :
  let out :=
    DiscordChatService.create_forum_channel (PStr "guild") "Meta"
      (with_script [Lost] Simulated.empty_world) in
  fst out = Ok PNone /\ is_Some (remote (snd out) !! "1").
Proof.
  cbv zeta.
  destruct (lost_answer_leaves_unknown_channel "guild" "Meta"
              (with_script [Lost] Simulated.empty_world) [] eq_refl eq_refl)
    as (H1 & H2 & _).
  split; [exact H1 |]. eexists. exact H2.
Defined.
